(** * Hospitech temperature dashboard: alignment, filtering and upload pipeline

    A shallow embedding of the client logic of [App.jsx] (the current
    revision, with the hourly resampled tables): the file picker, the upload
    orchestrator, the legend toggle, the merge of the per-file series into
    chart rows, the date-range filter, the resampled tables and the stats
    selector.  The older revision of the component has the same [onFile],
    [onUpload], [toggleLine], [mergedData] and [showStats]; it only lacks
    the resampled samples. *)

From Stdlib Require Import ZArith List Ascii String Floats.
From stdpp Require Import gmap strings list fin_maps.

Open Scope string_scope.
Open Scope list_scope.

(** ** JavaScript values met in the component *)

(** A property of a chart row holds a string (the label, the raw timestamp
    of the server) or a number (a temperature); a property that was never
    written reads as [undefined]. *)
Inductive jsval :=
| VUndef
| VStr (s : string)
| VNum (x : float).

(** The instant a dayjs object stands for: milliseconds since the epoch, or
    [None] for an invalid date (whose value is NaN). *)
Definition instant := option Z.

(** dayjs compares through [valueOf]; every comparison with NaN is false.
    [a.isAfter(b)] is [b < a], [a.isBefore(b)] is [a < b] and [a.isSame(b)]
    is [a <= b && b <= a]. *)
Definition isAfter (a b : instant) : bool :=
  match a, b with
  | Some x, Some y => (y <? x)%Z
  | _, _ => false
  end.

Definition isBefore (a b : instant) : bool :=
  match a, b with
  | Some x, Some y => (x <? y)%Z
  | _, _ => false
  end.

Definition isSame (a b : instant) : bool :=
  match a, b with
  | Some x, Some y => (x <=? y)%Z && (y <=? x)%Z
  | _, _ => false
  end.

(** A string in a condition: only the empty string is falsy. *)
Definition truthy (s : string) : bool := negb (String.eqb s "").

(** ** Data model *)

(** A sample as the server returns it. *)
Record rawSample := {
  raw_timestamp : string;
  raw_temperature : float
}.

(** A sample after shaping: the server's fields and the formatted label. *)
Record sample := {
  timestamp : string;
  temperature : float;
  timeLabel : string
}.

Record statsT := {
  stats_min : float;
  stats_avg : float;
  stats_max : float;
  stats_start : string;
  stats_end : string
}.

(** One entry of the series store, as [onUpload] pushes it. *)
Record Series := {
  id : nat;
  name : string;
  color : string;
  data : list sample;
  resampled : list sample;
  stats : option statsT
}.

(** [dateRange]: two strings, empty when the bound is not set. *)
Record DateRange := {
  start : string;
  end_ : string
}.

(** A chart row is a plain object: [timeLabel], [timestamp] and one
    property per series name, all in the same key space. *)
Abbreviation Row := (gmap string jsval).

(** [o[k] = v] for a number [v] on a plain object: an own property is
    written, except under the key [__proto__], which reaches the inherited
    accessor; its setter ignores a value that is not an object. *)
Definition setProp (k : string) (v : jsval) (o : Row) : Row :=
  if String.eqb k "__proto__" then o else <[k := v]> o.

(** [o.k]: an absent property reads as [undefined]. *)
Definition getProp (o : Row) (k : string) : jsval :=
  default VUndef (o !! k).

(** The object that [resampledBySeries] fills, starting from [{}]: its own
    properties, each an array of samples, and the array that has replaced
    its prototype, if one has. *)
Record RowsObject := {
  ownRows : gmap string (list sample);
  protoRows : option (list sample)
}.

Definition emptyObject : RowsObject :=
  {| ownRows := ∅; protoRows := None |}.

(** [o[k] = rows] for an array [rows]: an own property is written, except
    under the key [__proto__], where the inherited setter makes the array
    the prototype of the object and no own property is written. *)
Definition setRows (k : string) (rows : list sample) (o : RowsObject) : RowsObject :=
  if String.eqb k "__proto__"
  then {| ownRows := ownRows o; protoRows := Some rows |}
  else {| ownRows := <[k := rows]> (ownRows o); protoRows := protoRows o |}.

(** [o[k]] for a key that [setRows] has written: the own property, or,
    under [__proto__], the array the inherited getter answers with.  What
    an object inherits under other keys (methods, a [length]) is left out:
    the component reads the object under the names of the series only,
    just after writing under each of them. *)
Definition getRows (o : RowsObject) (k : string) : option (list sample) :=
  if String.eqb k "__proto__" then protoRows o else ownRows o !! k.


(** ** The insertion-ordered [Map] of [mergedData]

    [new Map()] keeps its entries in insertion order; [set] on a present key
    replaces the value in place, on an absent key it appends. *)
Abbreviation JsMap := (list (string * Row)).

Fixpoint map_has (all : JsMap) (k : string) : bool :=
  match all with
  | [] => false
  | (k', _) :: rest => if String.eqb k' k then true else map_has rest k
  end.

Fixpoint map_get (all : JsMap) (k : string) : option Row :=
  match all with
  | [] => None
  | (k', o) :: rest => if String.eqb k' k then Some o else map_get rest k
  end.

Fixpoint map_set (k : string) (o : Row) (all : JsMap) : JsMap :=
  match all with
  | [] => [(k, o)]
  | (k', o') :: rest =>
      if String.eqb k' k then (k', o) :: rest else (k', o') :: map_set k o rest
  end.

(** [all.get(k)[p] = v] writes into the object the map holds under [k]; the
    object is shared with the map, so the entry itself changes. *)
Fixpoint map_modify (k : string) (f : Row -> Row) (all : JsMap) : JsMap :=
  match all with
  | [] => []
  | (k', o) :: rest =>
      if String.eqb k' k then (k', f o) :: rest else (k', o) :: map_modify k f rest
  end.

(** [Array.from(all.values())] *)
Definition map_values (all : JsMap) : list Row := map snd all.

(** ** Legend toggle and stats selector *)

(** [arr.includes(n)] *)
Definition includes (arr : list string) (n : string) : bool :=
  existsb (String.eqb n) arr.

Definition toggleLine (n : string) (prev : list string) : list string :=
  if includes prev n
  then List.filter (fun m => negb (String.eqb m n)) prev
  else prev ++ [n].

Definition activeSeries (series : list Series) (hiddenKeys : list string) : list Series :=
  List.filter (fun s => negb (includes hiddenKeys (name s))) series.

(** [activeSeries.length === 1 ? activeSeries[0].stats : null]; the stats of
    a series may themselves be null. *)
Definition showStats (series : list Series) (hiddenKeys : list string) : option statsT :=
  let active := activeSeries series hiddenKeys in
  if Nat.eqb (length active) 1
  then match active with
       | s :: _ => stats s
       | [] => None
       end
  else None.

(** ** Files, requests and responses *)

Record File := {
  file_name : string;
  file_body : string
}.

(** The multipart form of one request: the file, and the bounds when set. *)
Record Form := {
  form_file : File;
  form_start : option string;
  form_end : option string
}.

(** The body of a successful response. *)
Record Response := {
  res_data : list rawSample;
  res_stats : option statsT;
  res_resampled : option (list rawSample)
}.

(** What the [catch] clause sees: an error without a response, or the
    response of a failed request with its optional [detail]. *)
Inductive UploadError :=
| NoResponse
| Failed (detail : option string).

Definition COLORS : list string :=
  ["#22c55e"; "#3b82f6"; "#f59e0b"; "#ef4444"; "#a855f7"].

Definition fallbackMessage : string := "Falha no upload/processamento".

(** [err?.response?.data?.detail || fallback]: an absent or empty detail
    gives the fallback. *)
Definition errorMessage (err : UploadError) : string :=
  match err with
  | Failed (Some d) => if truthy d then d else fallbackMessage
  | _ => fallbackMessage
  end.

(** ** Application state *)

Record AppState := {
  files : list File;
  series : list Series;
  loading : bool;
  uploadError : string;
  hiddenKeys : list string;
  dateRange : DateRange
}.

Definition initialState : AppState :=
  {| files := []; series := []; loading := false; uploadError := "";
     hiddenKeys := []; dateRange := {| start := ""; end_ := "" |} |}.

Definition setFiles (f : list File) (st : AppState) : AppState :=
  {| files := f; series := series st; loading := loading st;
     uploadError := uploadError st; hiddenKeys := hiddenKeys st;
     dateRange := dateRange st |}.

Definition setSeries (s : list Series) (st : AppState) : AppState :=
  {| files := files st; series := s; loading := loading st;
     uploadError := uploadError st; hiddenKeys := hiddenKeys st;
     dateRange := dateRange st |}.

Definition setLoading (b : bool) (st : AppState) : AppState :=
  {| files := files st; series := series st; loading := b;
     uploadError := uploadError st; hiddenKeys := hiddenKeys st;
     dateRange := dateRange st |}.

Definition setUploadError (e : string) (st : AppState) : AppState :=
  {| files := files st; series := series st; loading := loading st;
     uploadError := e; hiddenKeys := hiddenKeys st;
     dateRange := dateRange st |}.

Definition setHiddenKeys (h : list string) (st : AppState) : AppState :=
  {| files := files st; series := series st; loading := loading st;
     uploadError := uploadError st; hiddenKeys := h;
     dateRange := dateRange st |}.

Definition setDateRange (r : DateRange) (st : AppState) : AppState :=
  {| files := files st; series := series st; loading := loading st;
     uploadError := uploadError st; hiddenKeys := hiddenKeys st;
     dateRange := r |}.

(** [e.target.files ? Array.from(e.target.files).slice(0, 5) : []] *)
Definition onFile (picked : option (list File)) (st : AppState) : AppState :=
  let f := match picked with
           | Some l => take 5 l
           | None => []
           end in
  setFiles f st.

Definition onReset (st : AppState) : AppState :=
  setDateRange {| start := ""; end_ := "" |}
    (setHiddenKeys [] (setUploadError "" (setSeries [] (setFiles [] st)))).

Definition onToggle (n : string) (st : AppState) : AppState :=
  setHiddenKeys (toggleLine n (hiddenKeys st)) st.

(** ** The component, over its external collaborators *)

Section Component.

(** dayjs: [dayjs v] parses a value into an instant, [format t tpl]
    prints an instant under a template. *)
Variable dayjs : jsval -> instant.
Variable format : instant -> string -> string.

(** The upload endpoint: a request is answered with a response body or
    with a failure, and may change the server. *)
Variable Server : Type.
Variable post : Form -> Server -> (UploadError + Response) * Server.

(** *** Range filter, on chart rows and on resampled samples *)

(** The callback of [arr.filter] in [mergedData]. *)
Definition rowInRange (dateRange : DateRange) (row : Row) : bool :=
  let t := dayjs (getProp row "timestamp") in
  let afterStart :=
    if truthy (start dateRange)
    then isAfter t (dayjs (VStr (start dateRange)))
         || isSame t (dayjs (VStr (start dateRange)))
    else true in
  let beforeEnd :=
    if truthy (end_ dateRange)
    then isBefore t (dayjs (VStr (end_ dateRange)))
         || isSame t (dayjs (VStr (end_ dateRange)))
    else true in
  afterStart && beforeEnd.

(** The filter of [mergedData] runs only when a bound is set. *)
Definition filterStage (dateRange : DateRange) (arr : list Row) : list Row :=
  if truthy (start dateRange) || truthy (end_ dateRange)
  then List.filter (rowInRange dateRange) arr
  else arr.

(** The callback of [base.filter] in [resampledBySeries]; [startD] and
    [endD] are the parsed bounds, null (here an invalid instant, never
    read) when the bound is not set. *)
Definition sampleInRange (hasStart hasEnd : bool) (startD endD : instant)
    (r : sample) : bool :=
  let t := dayjs (VStr (timestamp r)) in
  let okStart := if hasStart then isAfter t startD || isSame t startD else true in
  let okEnd := if hasEnd then isBefore t endD || isSame t endD else true in
  okStart && okEnd.

(** *** Alignment: [mergedData] *)

(** The body of the inner [forEach]. *)
Definition addSample (s : Series) (all : JsMap) (d : sample) : JsMap :=
  let all' :=
    if negb (map_has all (timeLabel d))
    then map_set (timeLabel d)
           {[ "timeLabel" := VStr (timeLabel d);
              "timestamp" := VStr (timestamp d) ]} all
    else all in
  map_modify (timeLabel d) (setProp (name s) (VNum (temperature d))) all'.

Definition addSeries (all : JsMap) (s : Series) : JsMap :=
  fold_left (addSample s) (data s) all.

Definition mergeAll (series : list Series) : JsMap :=
  fold_left addSeries series [].

Definition mergedData (series : list Series) (dateRange : DateRange) : list Row :=
  filterStage dateRange (map_values (mergeAll series)).

(** *** Resampled tables: [resampledBySeries]

    [const map = {}] is a plain object and [map[s.name] = rows] an
    assignment to it, so a series named [__proto__] replaces the prototype
    of the object instead of adding a property: [setRows]. *)
Definition resampledBySeries (series : list Series) (dateRange : DateRange)
    : RowsObject :=
  let hasStart := truthy (start dateRange) in
  let hasEnd := truthy (end_ dateRange) in
  let startD := if hasStart then dayjs (VStr (start dateRange)) else None in
  let endD := if hasEnd then dayjs (VStr (end_ dateRange)) else None in
  fold_left
    (fun map s =>
       (* [s.resampled || []]: [onUpload] always stores an array *)
       let base := resampled s in
       let rows := List.filter (sampleInRange hasStart hasEnd startD endD) base in
       setRows (name s) rows map)
    series emptyObject.

(** *** Upload orchestrator: [onUpload] *)

Definition shapeData (d : rawSample) : sample :=
  {| timestamp := raw_timestamp d;
     temperature := raw_temperature d;
     timeLabel := format (dayjs (VStr (raw_timestamp d))) "DD/MM HH:mm" |}.

Definition shapeResampled (d : rawSample) : sample :=
  {| timestamp := raw_timestamp d;
     temperature := raw_temperature d;
     timeLabel := format (dayjs (VStr (raw_timestamp d))) "DD/MM/YYYY HH:mm" |}.

(** The form of one request: [start] and [end] are appended when set. *)
Definition buildForm (file : File) (dateRange : DateRange) : Form :=
  {| form_file := file;
     form_start := if truthy (start dateRange) then Some (start dateRange) else None;
     form_end := if truthy (end_ dateRange) then Some (end_ dateRange) else None |}.

(** The entry pushed for file [i]. *)
Definition shapeResult (i : nat) (file : File) (res : Response) : Series :=
  {| id := i;
     name := file_name file;
     color := nth (i mod length COLORS) COLORS "";
     data := map shapeData (res_data res);
     resampled := map shapeResampled (default [] (res_resampled res));
     stats := res_stats res |}.

(** The world outside the component: the server, and the requests sent
    to it so far, oldest first. *)
Record World := {
  server : Server;
  sent : list Form
}.

(** [await axios.post("/api/upload", form, ...)] *)
Definition axios_post (form : Form) (w : World) : (UploadError + Response) * World :=
  let '(r, sv) := post form (server w) in
  (r, {| server := sv; sent := sent w ++ [form] |}).

(** The [for] loop of the [try] block, from index [i] on: one request per
    file, in order; a failed request leaves the loop at once. *)
Fixpoint uploadLoop (i : nat) (rest : list File) (dateRange : DateRange)
    (results : list Series) (w : World) : (UploadError + list Series) * World :=
  match rest with
  | [] => (inr results, w)
  | file :: rest' =>
      match axios_post (buildForm file dateRange) w with
      | (inl err, w') => (inl err, w')
      | (inr res, w') =>
          uploadLoop (S i) rest' dateRange (results ++ [shapeResult i file res]) w'
      end
  end.

(** [onUpload], run to its end: the state after [finally]. *)
Definition onUpload (st : AppState) (w : World) : AppState * World :=
  if Nat.eqb (length (files st)) 0 then (st, w)
  else
    let st1 := setSeries [] (setUploadError "" (setLoading true st)) in
    match uploadLoop 0 (files st) (dateRange st) [] w with
    | (inr results, w') => (setLoading false (setSeries results st1), w')
    | (inl err, w') =>
        (setLoading false (setUploadError (errorMessage err) st1), w')
    end.

(** *** User events

    An upload is one step: it runs from the click to the end of [finally].
    Events that arrive while a request is pending are not interleaved. *)

Inductive Event :=
| EvFile (picked : option (list File))
| EvUpload
| EvReset
| EvToggle (n : string)
| EvStart (v : string)
| EvEnd (v : string).

Definition handle (ev : Event) (c : AppState * World) : AppState * World :=
  let '(st, w) := c in
  match ev with
  | EvFile picked => (onFile picked st, w)
  | EvUpload => onUpload st w
  | EvReset => (onReset st, w)
  | EvToggle n => (onToggle n st, w)
  | EvStart v =>
      (setDateRange {| start := v; end_ := end_ (dateRange st) |} st, w)
  | EvEnd v =>
      (setDateRange {| start := start (dateRange st); end_ := v |} st, w)
  end.

(** The states the component reaches from its initial state. *)
Inductive reachable (sv0 : Server) : AppState * World -> Prop :=
| reach_init : reachable sv0 (initialState, {| server := sv0; sent := [] |})
| reach_step ev c : reachable sv0 c -> reachable sv0 (handle ev c).

End Component.

Arguments Build_World {Server} server sent.
Arguments server {Server} w.
Arguments sent {Server} w.
Arguments axios_post {Server} post form w.
Arguments uploadLoop dayjs format {Server} post i rest dateRange results w.
Arguments onUpload dayjs format {Server} post st w.
Arguments handle dayjs format {Server} post ev c.
Arguments reachable dayjs format {Server} post sv0 c.
Arguments reach_init dayjs format {Server} post sv0.
Arguments reach_step dayjs format {Server} post sv0 ev c.

(** What either callback answers for the instant [t] it has parsed. *)
Definition acceptsInstant (dayjs : jsval -> instant) (dateRange : DateRange)
    (t : instant) : bool :=
  (if truthy (start dateRange)
   then isAfter t (dayjs (VStr (start dateRange)))
        || isSame t (dayjs (VStr (start dateRange)))
   else true)
  && (if truthy (end_ dateRange)
      then isBefore t (dayjs (VStr (end_ dateRange)))
           || isSame t (dayjs (VStr (end_ dateRange)))
      else true).

(** The callback of [resampledBySeries] as its closure binds it for one
    [dateRange]. *)
Definition sampleKept (dayjs : jsval -> instant) (dateRange : DateRange)
    : sample -> bool :=
  sampleInRange dayjs (truthy (start dateRange)) (truthy (end_ dateRange))
    (if truthy (start dateRange) then dayjs (VStr (start dateRange)) else None)
    (if truthy (end_ dateRange) then dayjs (VStr (end_ dateRange)) else None).

(** ** A model of dayjs for the examples

    The instances below read the two string shapes the component meets
    ([YYYY-MM-DDTHH:mm], with optional [:ss]) in a locale at UTC, take a
    number as milliseconds since the epoch, and print the two templates of
    [onUpload].  The theorems are stated for every [dayjs] and [format];
    this model only serves to evaluate them on concrete inputs. *)
Module DayjsUTC.

Definition digitOf (c : ascii) : option Z :=
  let n := Z.of_nat (nat_of_ascii c) in
  if (48 <=? n)%Z && (n <=? 57)%Z then Some (n - 48)%Z else None.

Fixpoint digitsFrom (acc : Z) (cs : list ascii) : option Z :=
  match cs with
  | [] => Some acc
  | c :: cs' =>
      match digitOf c with
      | Some d => digitsFrom (acc * 10 + d)%Z cs'
      | None => None
      end
  end.

Definition number (s : string) : option Z :=
  match list_ascii_of_string s with
  | [] => None
  | cs => digitsFrom 0 cs
  end.

Definition days_from_civil (y m d : Z) : Z :=
  let y' := if (m <=? 2)%Z then (y - 1)%Z else y in
  let era := (y' / 400)%Z in
  let yoe := (y' - era * 400)%Z in
  let mp := if (2 <? m)%Z then (m - 3)%Z else (m + 9)%Z in
  let doy := ((153 * mp + 2) / 5 + d - 1)%Z in
  let doe := (yoe * 365 + yoe / 4 - yoe / 100 + doy)%Z in
  (era * 146097 + doe - 719468)%Z.

(** Year, month and day of a day number. *)
Definition civil_from_days (z : Z) : Z * Z * Z :=
  let z' := (z + 719468)%Z in
  let era := (z' / 146097)%Z in
  let doe := (z' - era * 146097)%Z in
  let yoe := ((doe - doe / 1460 + doe / 36524 - doe / 146096) / 365)%Z in
  let doy := (doe - (365 * yoe + yoe / 4 - yoe / 100))%Z in
  let mp := ((5 * doy + 2) / 153)%Z in
  let d := (doy - (153 * mp + 2) / 5 + 1)%Z in
  let m := if (mp <? 10)%Z then (mp + 3)%Z else (mp - 9)%Z in
  let y := (yoe + era * 400)%Z in
  (if (m <=? 2)%Z then (y + 1)%Z else y, m, d).

Definition daysInMonth (y m : Z) : Z :=
  (days_from_civil (if (m =? 12)%Z then y + 1 else y)
                   (if (m =? 12)%Z then 1 else m + 1) 1
   - days_from_civil y m 1)%Z.

Definition msPerMinute : Z := 60000.
Definition msPerDay : Z := 86400000.

Definition parseString (s : string) : instant :=
  let sep1 := substring 4 1 s in
  let sep2 := substring 7 1 s in
  let sepT := substring 10 1 s in
  let sep3 := substring 13 1 s in
  let len := String.length s in
  let seconds :=
    if Nat.eqb len 16 then Some 0%Z
    else if Nat.eqb len 19 && String.eqb (substring 16 1 s) ":"
         then number (substring 17 2 s)
         else None in
  match number (substring 0 4 s), number (substring 5 2 s),
        number (substring 8 2 s), number (substring 11 2 s),
        number (substring 14 2 s), seconds with
  | Some y, Some m, Some d, Some h, Some mi, Some sec =>
      if String.eqb sep1 "-" && String.eqb sep2 "-" && String.eqb sepT "T"
         && String.eqb sep3 ":"
         && (1 <=? m)%Z && (m <=? 12)%Z && (1 <=? d)%Z
         && (d <=? daysInMonth y m)%Z
         && (h <? 24)%Z && (mi <? 60)%Z && (sec <? 60)%Z
      then Some (days_from_civil y m d * msPerDay
                 + h * 3600000 + mi * msPerMinute + sec * 1000)%Z
      else None
  | _, _, _, _, _, _ => None
  end.

(** A number is a time value: truncated to an integer, invalid when not
    finite or beyond the range of a date. *)
Definition parseNumber (x : float) : instant :=
  match Prim2SF x with
  | S754_zero _ => Some 0%Z
  | S754_finite neg m e =>
      let mag := if (0 <=? e)%Z then (Z.pos m * 2 ^ e)%Z
                 else (Z.pos m / 2 ^ (- e))%Z in
      if (mag <=? 8640000000000000)%Z
      then Some (if neg then (- mag)%Z else mag)
      else None
  | _ => None
  end.

(** [dayjs(v)] at the instant [now]: [dayjs(undefined)] is the present. *)
Definition dayjs (now : Z) (v : jsval) : instant :=
  match v with
  | VUndef => Some now
  | VStr s => parseString s
  | VNum x => parseNumber x
  end.

Definition digitChar (n : Z) : ascii := ascii_of_nat (48 + Z.to_nat (n mod 10)).

Definition pad2 (n : Z) : string :=
  String (digitChar (n / 10)) (String (digitChar n) EmptyString).

Definition pad4 (n : Z) : string :=
  String (digitChar (n / 1000)) (String (digitChar (n / 100)) (pad2 n)).

Definition format (t : instant) (template : string) : string :=
  match t with
  | None => "Invalid Date"
  | Some ms =>
      let '(y, m, d) := civil_from_days (ms / msPerDay) in
      let h := ((ms mod msPerDay) / 3600000)%Z in
      let mi := ((ms mod 3600000) / msPerMinute)%Z in
      let clock := (pad2 h ++ ":" ++ pad2 mi)%string in
      if String.eqb template "DD/MM HH:mm"
      then (pad2 d ++ "/" ++ pad2 m ++ " " ++ clock)%string
      else if String.eqb template "DD/MM/YYYY HH:mm"
      then (pad2 d ++ "/" ++ pad2 m ++ "/" ++ pad4 y ++ " " ++ clock)%string
      else template
  end.

End DayjsUTC.

(** ** Fixtures for the examples *)
Module Fixtures.

Definition file (n : string) : File := {| file_name := n; file_body := "" |}.

Definition sevenFiles : list File :=
  map file ["a.csv"; "b.csv"; "c.csv"; "d.csv"; "e.csv"; "f.csv"; "g.csv"].

(** A server that is down: every request fails without a response. *)
Definition downPost (_ : Form) (sv : unit) : (UploadError + Response) * unit :=
  (inl NoResponse, sv).

Definition someStats (lo : float) : statsT :=
  {| stats_min := lo; stats_avg := lo; stats_max := lo;
     stats_start := "2024-01-01T10:00"; stats_end := "2024-01-01T12:00" |}.

Definition mkSample (ts : string) (temp : float) : sample :=
  {| timestamp := ts; temperature := temp;
     timeLabel := DayjsUTC.format (DayjsUTC.parseString ts) "DD/MM HH:mm" |}.

(** The series of file [i], with stats that tell the files apart. *)
Definition mkSeries (i : nat) (n : string) (d r : list sample) : Series :=
  {| id := i; name := n; color := nth (i mod length COLORS) COLORS "";
     data := d; resampled := r;
     stats := Some (someStats (PrimFloat.of_uint63 (Uint63.of_Z (Z.of_nat i)))) |}.

(** The batch of the specification's scenario. *)
Definition fileA : Series :=
  mkSeries 0 "A.xlsx"
    [mkSample "2024-01-01T10:00" 20.0; mkSample "2024-01-01T11:00" 21.0] [].

Definition fileB : Series :=
  mkSeries 1 "B.xlsx"
    [mkSample "2024-01-01T10:00" 22.0; mkSample "2024-01-01T12:00" 23.0] [].

(** Two files of the same name. *)
Definition twin1 : Series :=
  mkSeries 0 "a.csv" [mkSample "2024-01-01T10:00" 20.0]
    [mkSample "2024-01-01T10:00" 20.0].

Definition twin2 : Series :=
  mkSeries 1 "a.csv" [mkSample "2024-01-01T10:00" 22.0]
    [mkSample "2024-01-01T11:00" 22.0].

(** A file named [n] with one sample. *)
Definition oneSample (n : string) : Series :=
  mkSeries 0 n [mkSample "2024-01-01T10:00" 20.0] [].

(** Two files whose readings are not aligned in time. *)
Definition late : Series :=
  mkSeries 0 "late.csv" [mkSample "2024-01-01T11:00" 21.0] [].

Definition early : Series :=
  mkSeries 1 "early.csv" [mkSample "2024-01-01T10:00" 20.0] [].

(** A server that rejects the file [bad.csv] and answers every other file
    with two readings one year apart. *)
Definition yearApart : list rawSample :=
  [ {| raw_timestamp := "2022-03-01T10:00"; raw_temperature := 20.0 |};
    {| raw_timestamp := "2023-03-01T10:00"; raw_temperature := 25.0 |} ].

Definition pickyPost (form : Form) (requests : nat)
    : (UploadError + Response) * nat :=
  if String.eqb (file_name (form_file form)) "bad.csv"
  then (inl (Failed (Some "Formato de arquivo nao suportado")), S requests)
  else (inr {| res_data := yearApart; res_stats := None; res_resampled := None |},
        S requests).

Definition threeFiles : list File := map file ["a.csv"; "bad.csv"; "c.csv"].

End Fixtures.

(** ** The range contract, in the words of the specification

    A bound is absent when its string is empty; [t] is accepted when each
    bound is absent or lies on the right side of [t], equality included.
    An invalid instant is on no side of anything. *)
Definition inRangeSpec (dayjs : jsval -> instant) (dateRange : DateRange)
    (t : instant) : Prop :=
  (start dateRange = ""
   \/ exists x s, t = Some x /\ dayjs (VStr (start dateRange)) = Some s /\ (s <= x)%Z)
  /\ (end_ dateRange = ""
      \/ exists x e, t = Some x /\ dayjs (VStr (end_ dateRange)) = Some e /\ (x <= e)%Z).

(** The boundary behaviour asked of a test that answered [accepted] for
    the instant [t]: an instant equal to a bound is kept when the other
    bound allows it, an instant strictly outside a bound is dropped. *)
Definition inclusiveAt (dayjs : jsval -> instant) (dateRange : DateRange)
    (t : instant) (accepted : bool) : Prop :=
  forall x, t = Some x ->
    (dayjs (VStr (start dateRange)) = Some x ->
     (end_ dateRange = ""
      \/ exists e, dayjs (VStr (end_ dateRange)) = Some e /\ (x <= e)%Z) ->
     accepted = true)
    /\ (dayjs (VStr (end_ dateRange)) = Some x ->
        (start dateRange = ""
         \/ exists s, dayjs (VStr (start dateRange)) = Some s /\ (s <= x)%Z) ->
        accepted = true)
    /\ (forall s, start dateRange <> "" ->
          dayjs (VStr (start dateRange)) = Some s -> (x < s)%Z -> accepted = false)
    /\ (forall e, end_ dateRange <> "" ->
          dayjs (VStr (end_ dateRange)) = Some e -> (e < x)%Z -> accepted = false).

(** ** Traversal order and write history, for stating the merge

    [writes] lists the pairs (series, sample) in the order the two nested
    [forEach] visit them: series in stored order, and the samples of each
    series in stored order. *)
Definition writes (series : list Series) : list (Series * sample) :=
  flat_map (fun s => map (pair s) (data s)) series.

Definition labels (ws : list (Series * sample)) : list string :=
  map (fun w => timeLabel (snd w)) ws.

(** The distinct elements of a list, each at the place of its first
    occurrence. *)
Fixpoint firstSeen (l : list string) : list string :=
  match l with
  | [] => []
  | x :: l' => x :: List.filter (fun y => negb (String.eqb y x)) (firstSeen l')
  end.

(** The first sample visited that carries the label [L]. *)
Definition firstWith (L : string) (ws : list (Series * sample)) : option sample :=
  snd <$> head (List.filter (fun w => String.eqb (timeLabel (snd w)) L) ws).

(** The last sample visited that carries the label [L] in a series named
    [n]. *)
Definition lastWrite (n L : string) (ws : list (Series * sample)) : option sample :=
  snd <$> last (List.filter
                  (fun w => String.eqb (name (fst w)) n
                            && String.eqb (timeLabel (snd w)) L) ws).

(** The last sample of one series that carries the label [L]. *)
Definition lastLabelled (L : string) (s : Series) : option sample :=
  last (List.filter (fun d => String.eqb (timeLabel d) L) (data s)).

(** What a row stored under the label [L] holds under the key [k] once the
    writes [ws] are done: the temperature last written under [k], if any
    (none ever under [__proto__]), else what the row was created with. *)
Definition expectedProp (k L : string) (ws : list (Series * sample)) : option jsval :=
  match (if String.eqb k "__proto__" then None else lastWrite k L ws) with
  | Some d => Some (VNum (temperature d))
  | None =>
      if String.eqb k "timeLabel" then Some (VStr L)
      else if String.eqb k "timestamp"
           then (fun d => VStr (timestamp d)) <$> firstWith L ws
           else None
  end.

(** The object literal a new label is stored with. *)
Definition newRow (d : sample) : Row :=
  {[ "timeLabel" := VStr (timeLabel d); "timestamp" := VStr (timestamp d) ]}.

(** The two [forEach] loops as one pass over the writes. *)
Definition applyWrites (ws : list (Series * sample)) (all : JsMap) : JsMap :=
  fold_left (fun all w => addSample (fst w) all (snd w)) ws all.

(** The last series of the list that is named [n]. *)
Definition lastNamed (n : string) (series : list Series) : option Series :=
  last (List.filter (fun s => String.eqb (name s) n) series).

(** [s] is the only series of its name. *)
Definition onlyOfItsName (s : Series) (series : list Series) : Prop :=
  forall s', In s' series -> name s' = name s -> s' = s.

(** ** Login

    The fixed credentials, the login form and the flag kept in
    [localStorage] under the key [auth]. *)
Definition USER : string := "hospitech".
Definition PASS : string := "1234".

Definition loginErrorMessage : string := "Usuário ou senha incorretos".

Record AuthState := {
  isAuthenticated : bool;
  username : string;
  password : string;
  loginError : string
}.

(** [localStorage]: string keys, string values. *)
Abbreviation Storage := (gmap string string).

(** The initial state of a mounted component:
    [localStorage.getItem("auth") === "1"], empty fields. *)
Definition mountAuth (ls : Storage) : AuthState :=
  {| isAuthenticated := match ls !! "auth" with
                        | Some v => String.eqb v "1"
                        | None => false
                        end;
     username := ""; password := ""; loginError := "" |}.

Definition handleLogin (a : AuthState) (ls : Storage) : AuthState * Storage :=
  if String.eqb (username a) USER && String.eqb (password a) PASS
  then ({| isAuthenticated := true; username := username a;
           password := password a; loginError := "" |},
        <["auth" := "1"]> ls)
  else ({| isAuthenticated := isAuthenticated a; username := username a;
           password := password a; loginError := loginErrorMessage |},
        ls).

Definition handleLogout (a : AuthState) (ls : Storage) : AuthState * Storage :=
  ({| isAuthenticated := false; username := ""; password := "";
      loginError := loginError a |},
   delete "auth" ls).

Inductive AuthEvent :=
| AuthUser (v : string)
| AuthPass (v : string)
| AuthSubmit
| AuthLogout.

Definition handleAuth (ev : AuthEvent) (c : AuthState * Storage) : AuthState * Storage :=
  let '(a, ls) := c in
  match ev with
  | AuthUser v =>
      ({| isAuthenticated := isAuthenticated a; username := v;
          password := password a; loginError := loginError a |}, ls)
  | AuthPass v =>
      ({| isAuthenticated := isAuthenticated a; username := username a;
          password := v; loginError := loginError a |}, ls)
  | AuthSubmit => handleLogin a ls
  | AuthLogout => handleLogout a ls
  end.

(** The sessions reached from a mount over the storage [ls0]. *)
Inductive authReachable (ls0 : Storage) : AuthState * Storage -> Prop :=
| auth_init : authReachable ls0 (mountAuth ls0, ls0)
| auth_step ev c : authReachable ls0 c -> authReachable ls0 (handleAuth ev c).

(** ** The rendered page and the PDF export *)

(** One [Line] of the chart. *)
Record LineProps := {
  line_dataKey : string;
  line_stroke : string;
  line_hide : bool
}.

(** The chart section: the data of the [LineChart] and its lines. *)
Record ChartEl := {
  chart_data : list Row;
  chart_lines : list LineProps
}.

(** A line of a table body: a reading, or the notice for an empty period. *)
Inductive BodyRow :=
| DataRow (time : string) (temp : string)
| NoDataRow.

(** One [div.table-wrap]. *)
Record TableEl := {
  table_title : string;
  table_color : string;
  table_display_none : bool;
  table_badge : nat;
  table_body : list BodyRow
}.

(** What [exportPDF] looks up in the document. *)
Record Page := {
  chartSection : option ChartEl;
  tablesSection : option (list TableEl)
}.

Inductive Element :=
| ElChart (c : ChartEl)
| ElTable (t : TableEl).

(** A canvas of [html2canvas]: its size in pixels. *)
Record Canvas := {
  canvas_width : float;
  canvas_height : float
}.

(** The calls made on the jsPDF document, in order; an image is named by
    the element it was captured from. *)
Inductive PdfOp :=
| AddImage (el : Element) (x y w h : float)
| SetFontSize (n : float)
| Text (s : string) (x y : float)
| AddPage
| Save (filename : string).

Section Report.

Variable dayjs : jsval -> instant.
Variable format : instant -> string -> string.

(** [x.toFixed(2)] *)
Variable toFixed2 : float -> string.

(** [html2canvas(el, { scale: 2 })] *)
Variable html2canvas : Element -> Canvas.

(** The page size of the document, in millimetres. *)
Variable pdfWidth : float.
Variable pageHeight : float.

Definition renderLine (hiddenKeys : list string) (s : Series) : LineProps :=
  {| line_dataKey := name s;
     line_stroke := color s;
     line_hide := includes hiddenKeys (name s) |}.

(** The chart section is rendered when the store holds a series. *)
Definition renderChart (st : AppState) : option ChartEl :=
  if Nat.ltb 0 (length (series st))
  then Some {| chart_data := mergedData dayjs (series st) (dateRange st);
               chart_lines := map (renderLine (hiddenKeys st)) (series st) |}
  else None.

Definition renderBodyRow (r : sample) : BodyRow :=
  DataRow (format (dayjs (VStr (timestamp r))) "DD/MM/YYYY HH:mm")
          (toFixed2 (temperature r)).

(** The callback of [series.map] in the tables section. *)
Definition renderTable (st : AppState) (s : Series) : TableEl :=
  let hidden := includes (hiddenKeys st) (name s) in
  let rows :=
    default [] (getRows (resampledBySeries dayjs (series st) (dateRange st))
                  (name s)) in
  {| table_title := name s;
     table_color := color s;
     table_display_none := hidden;
     table_badge := length rows;
     table_body :=
       map renderBodyRow rows
       ++ (if Nat.eqb (length rows) 0 then [NoDataRow] else []) |}.

Definition renderTables (st : AppState) : option (list TableEl) :=
  if Nat.ltb 0 (length (series st))
  then Some (map (renderTable st) (series st))
  else None.

(** The page of the authenticated app, as far as [exportPDF] reads it. *)
Definition render (st : AppState) : Page :=
  {| chartSection := renderChart st; tablesSection := renderTables st |}.

(** [(canvas.height * pdfWidth) / canvas.width] *)
Definition scaledHeight (canvas : Canvas) : float :=
  (canvas_height canvas * pdfWidth / canvas_width canvas)%float.

(** The five lines of the stats block, at [statsY]. *)
Definition statsLines (s : statsT) (statsY : float) : list PdfOp :=
  [ SetFontSize 12;
    Text ("Temperatura mínima: " ++ toFixed2 (stats_min s) ++ " °C")%string
         10 statsY;
    Text ("Temperatura média: " ++ toFixed2 (stats_avg s) ++ " °C")%string
         10 (statsY + 8)%float;
    Text ("Temperatura máxima: " ++ toFixed2 (stats_max s) ++ " °C")%string
         10 (statsY + 16)%float;
    Text ("Início: "
          ++ format (dayjs (VStr (stats_start s))) "DD/MM/YYYY HH:mm")%string
         10 (statsY + 24)%float;
    Text ("Fim: "
          ++ format (dayjs (VStr (stats_end s))) "DD/MM/YYYY HH:mm")%string
         10 (statsY + 32)%float ].

(** The loop over the tables, with the cursor at [y]. *)
Fixpoint exportTables (tables : list TableEl) (y : float) : list PdfOp :=
  match tables with
  | [] => []
  | t :: rest =>
      if table_display_none t then exportTables rest y
      else
        let canvas := html2canvas (ElTable t) in
        let imgHeight := scaledHeight canvas in
        let newPage := (pageHeight - 10 <? y + imgHeight)%float in
        let y' := if newPage then 10%float else y in
        (if newPage then [AddPage] else [])
        ++ AddImage (ElTable t) 10 y' (pdfWidth - 20)%float imgHeight
           :: exportTables rest (y' + (imgHeight + 10))%float
  end.

(** [exportPDF]: the calls on the document, none when the chart section is
    not in the page. *)
Definition exportPDF (page : Page) (showStats : option statsT) : list PdfOp :=
  match chartSection page with
  | None => []
  | Some chart =>
      let chartCanvas := html2canvas (ElChart chart) in
      let y0 := 10%float in
      let chartHeight := scaledHeight chartCanvas in
      let y1 := (y0 + (chartHeight + 10))%float in
      let statsOps :=
        match showStats with
        | Some s => statsLines s y1
        | None => []
        end in
      let y2 :=
        match showStats with
        | Some _ => (y1 + 42)%float
        | None => y1
        end in
      let tableOps :=
        match tablesSection page with
        | Some tables => exportTables tables y2
        | None => []
        end in
      AddImage (ElChart chart) 10 y0 (pdfWidth - 20)%float chartHeight
      :: statsOps ++ tableOps ++ [Save "relatorio.pdf"]
  end.

(** The export of the page a state renders, with the stats it shows. *)
Definition exportState (st : AppState) : list PdfOp :=
  exportPDF (render st) (showStats (series st) (hiddenKeys st)).

End Report.

(** The table images of an export, in the order they are added. *)
Definition tableImages (ops : list PdfOp) : list TableEl :=
  flat_map (fun op => match op with
                      | AddImage (ElTable t) _ _ _ _ => [t]
                      | _ => []
                      end) ops.

Definition isText (op : PdfOp) : bool :=
  match op with
  | Text _ _ _ => true
  | _ => false
  end.

Definition isAddPage (op : PdfOp) : bool :=
  match op with
  | AddPage => true
  | _ => false
  end.

Definition isSave (op : PdfOp) : bool :=
  match op with
  | Save _ => true
  | _ => false
  end.

(** ** Fixtures for the export examples *)
Module ReportFixtures.

(** An A4 page in landscape, in millimetres. *)
Definition pdfWidth : float := 297.
Definition pageHeight : float := 210.

(** Captures of 1600 pixels in width: 800 in height for the chart, 400 for
    a table. *)
Definition html2canvas (el : Element) : Canvas :=
  match el with
  | ElChart _ => {| canvas_width := 1600; canvas_height := 800 |}
  | ElTable _ => {| canvas_width := 1600; canvas_height := 400 |}
  end.

Definition toFixed2 (_ : float) : string := "0.00".

(** Two files without readings, the second one hidden. *)
Definition twoFiles : AppState :=
  setHiddenKeys ["b.csv"]
    (setSeries [Fixtures.mkSeries 0 "a.csv" [] []; Fixtures.mkSeries 1 "b.csv" [] []]
       initialState).

Definition export (st : AppState) : list PdfOp :=
  exportState (DayjsUTC.dayjs 0) DayjsUTC.format toFixed2 html2canvas pdfWidth
    pageHeight st.

End ReportFixtures.

(** * Properties *)

(** ** Legend toggle *)

Lemma includes_In (arr : list string) (n : string) :
  includes arr n = true <-> In n arr.
Proof.
  unfold includes. rewrite existsb_exists. split.
  - intros (m & Hm & E). apply String.eqb_eq in E. now subst.
  - intros Hn. exists n. split; [assumption | apply String.eqb_refl].
Qed.

Lemma includes_false (arr : list string) (n : string) :
  includes arr n = false <-> ~ In n arr.
Proof.
  rewrite <- includes_In. destruct (includes arr n); split; congruence.
Qed.

Lemma toggleLine_In (n : string) (prev : list string) (m : string) :
  In m (toggleLine n prev) <-> (m = n /\ ~ In n prev) \/ (m <> n /\ In m prev).
Proof.
  unfold toggleLine. destruct (includes prev n) eqn:E.
  - apply includes_In in E. rewrite filter_In, negb_true_iff, String.eqb_neq.
    tauto.
  - apply includes_false in E. rewrite in_app_iff. simpl.
    destruct (String.eqb_spec m n) as [->|Hne].
    + tauto.
    + split.
      * intros [Hm | [Hm | []]]; [tauto | congruence].
      * tauto.
Qed.

(** C8: toggling [n] in the hidden names removes [n] when it is a member and
    adds it when it is not, no other name's membership changes, and
    toggling the same name twice restores the original membership. *)
Theorem toggleLine_membership (hidden : list string) (n : string) :
  (In n (toggleLine n hidden) <-> ~ In n hidden)
  /\ (forall m, m <> n -> (In m (toggleLine n hidden) <-> In m hidden))
  /\ (forall m, In m (toggleLine n (toggleLine n hidden)) <-> In m hidden).
Proof.
  split; [| split].
  - rewrite toggleLine_In. tauto.
  - intros m Hne. rewrite toggleLine_In. tauto.
  - intros m. rewrite !toggleLine_In.
    destruct (String.eqb_spec m n) as [->|Hne]; [| tauto].
    destruct (in_dec string_dec n hidden); tauto.
Qed.

Lemma toggleLine_membership_witness :
  (In "b.csv" (toggleLine "a.csv" ["a.csv"; "b.csv"]) <-> In "b.csv" ["a.csv"; "b.csv"]).
Proof.
  apply (proj1 (proj2 (toggleLine_membership ["a.csv"; "b.csv"] "a.csv"))).
  discriminate.
Defined.

(** ** Stats selector *)




(** ** File selection *)

Section Selection.

Variable dayjs : jsval -> instant.
Variable format : instant -> string -> string.
Variable Server : Type.
Variable post : Form -> Server -> (UploadError + Response) * Server.

Lemma onFile_files (picked : option (list File)) (st : AppState) :
  files (onFile picked st) = take 5 (default [] picked).
Proof. destruct picked; reflexivity. Qed.

Lemma onUpload_files (st : AppState) (w : World Server) :
  files (fst (onUpload dayjs format post st w)) = files st.
Proof.
  unfold onUpload. destruct (Nat.eqb (length (files st)) 0); [reflexivity |].
  destruct (uploadLoop _ _ _ _ _ _ _ _) as [[err | results] w']; reflexivity.
Qed.

Lemma handle_files_bound (ev : Event) (c : AppState * World Server) :
  length (files (fst c)) <= 5 ->
  length (files (fst (handle dayjs format post ev c))) <= 5.
Proof.
  destruct c as [st w]. cbn [fst]. intros Hst.
  destruct ev; cbn [handle fst]; try assumption.
  - rewrite onFile_files, length_take. lia.
  - now rewrite onUpload_files.
  - simpl. lia.
Qed.

(** C9: a file selection keeps the first five files offered and drops the
    rest, so the pending list holds at most five entries after it, and at
    most five in every state the component reaches. *)
Theorem files_at_most_five :
  (forall picked st,
     files (onFile picked st) = take 5 (default [] picked)
     /\ length (files (onFile picked st)) <= 5)
  /\ (forall sv0 c,
        reachable dayjs format post sv0 c -> length (files (fst c)) <= 5).
Proof.
  split.
  - intros picked st. rewrite onFile_files, length_take. split; [reflexivity | lia].
  - intros sv0 c R. induction R as [| ev c R IH].
    + simpl. lia.
    + now apply handle_files_bound.
Qed.

End Selection.

Lemma files_at_most_five_witness :
  length (files (fst (handle (DayjsUTC.dayjs 0) DayjsUTC.format Fixtures.downPost
                        EvUpload
                        (handle (DayjsUTC.dayjs 0) DayjsUTC.format Fixtures.downPost
                           (EvFile (Some Fixtures.sevenFiles))
                           (initialState, {| server := tt; sent := [] |}))))) <= 5.
Proof.
  apply (proj2 (files_at_most_five (DayjsUTC.dayjs 0) DayjsUTC.format unit Fixtures.downPost) tt).
  do 2 apply reach_step. apply reach_init.
Defined.

(** ** Range filter *)

Lemma truthy_false (s : string) : truthy s = false <-> s = "".
Proof.
  unfold truthy. rewrite negb_false_iff. apply String.eqb_eq.
Qed.

Lemma truthy_true (s : string) : truthy s = true <-> s <> "".
Proof.
  unfold truthy. rewrite negb_true_iff. apply String.eqb_neq.
Qed.

Lemma after_or_same (t s : instant) :
  isAfter t s || isSame t s = true
  <-> exists x y, t = Some x /\ s = Some y /\ (y <= x)%Z.
Proof.
  destruct t as [x |], s as [y |]; simpl.
  - rewrite orb_true_iff, andb_true_iff, Z.ltb_lt, !Z.leb_le. split.
    + intros H. exists x, y. repeat split. lia.
    + intros (x' & y' & [= <-] & [= <-] & H). lia.
  - split; [discriminate | intros (? & ? & _ & [=] & _)].
  - split; [discriminate | intros (? & ? & [=] & _)].
  - split; [discriminate | intros (? & ? & [=] & _)].
Qed.

Lemma before_or_same (t e : instant) :
  isBefore t e || isSame t e = true
  <-> exists x y, t = Some x /\ e = Some y /\ (x <= y)%Z.
Proof.
  destruct t as [x |], e as [y |]; simpl.
  - rewrite orb_true_iff, andb_true_iff, Z.ltb_lt, !Z.leb_le. split.
    + intros H. exists x, y. repeat split. lia.
    + intros (x' & y' & [= <-] & [= <-] & H). lia.
  - split; [discriminate | intros (? & ? & _ & [=] & _)].
  - split; [discriminate | intros (? & ? & [=] & _)].
  - split; [discriminate | intros (? & ? & [=] & _)].
Qed.

Section RangeFilter.

Variable dayjs : jsval -> instant.

Lemma rowInRange_accepts (dateRange : DateRange) (row : Row) :
  rowInRange dayjs dateRange row
  = acceptsInstant dayjs dateRange (dayjs (getProp row "timestamp")).
Proof. reflexivity. Qed.

Lemma sampleInRange_accepts (dateRange : DateRange) (r : sample) :
  sampleInRange dayjs (truthy (start dateRange)) (truthy (end_ dateRange))
    (if truthy (start dateRange) then dayjs (VStr (start dateRange)) else None)
    (if truthy (end_ dateRange) then dayjs (VStr (end_ dateRange)) else None) r
  = acceptsInstant dayjs dateRange (dayjs (VStr (timestamp r))).
Proof.
  unfold sampleInRange, acceptsInstant.
  destruct (truthy (start dateRange)), (truthy (end_ dateRange)); reflexivity.
Qed.

Lemma acceptsInstant_spec (dateRange : DateRange) (t : instant) :
  acceptsInstant dayjs dateRange t = true <-> inRangeSpec dayjs dateRange t.
Proof.
  unfold acceptsInstant, inRangeSpec. rewrite andb_true_iff.
  apply Morphisms_Prop.and_iff_morphism.
  - destruct (truthy (start dateRange)) eqn:E.
    + apply truthy_true in E. rewrite after_or_same. split.
      * intros (x & y & -> & Hs & H). right. now exists x, y.
      * intros [? | (x & y & -> & Hs & H)]; [contradiction | now exists x, y].
    + apply truthy_false in E. tauto.
  - destruct (truthy (end_ dateRange)) eqn:E.
    + apply truthy_true in E. rewrite before_or_same. split.
      * intros (x & y & -> & Hs & H). right. now exists x, y.
      * intros [? | (x & y & -> & Hs & H)]; [contradiction | now exists x, y].
    + apply truthy_false in E. tauto.
Qed.

Lemma rowInRange_spec (dateRange : DateRange) (row : Row) :
  rowInRange dayjs dateRange row = true
  <-> inRangeSpec dayjs dateRange (dayjs (getProp row "timestamp")).
Proof. rewrite rowInRange_accepts. apply acceptsInstant_spec. Qed.

Lemma filterStage_In (dateRange : DateRange) (arr : list Row) (row : Row) :
  In row (filterStage dayjs dateRange arr)
  <-> In row arr /\ inRangeSpec dayjs dateRange (dayjs (getProp row "timestamp")).
Proof.
  unfold filterStage.
  destruct (truthy (start dateRange) || truthy (end_ dateRange)) eqn:E.
  - rewrite filter_In, rowInRange_spec. reflexivity.
  - apply orb_false_elim in E as [E1 E2].
    apply truthy_false in E1, E2. unfold inRangeSpec. tauto.
Qed.

End RangeFilter.

(** ** Resampled tables *)

Section Resampled.

Variable dayjs : jsval -> instant.

Lemma sampleKept_spec (dateRange : DateRange) (r : sample) :
  sampleKept dayjs dateRange r = true
  <-> inRangeSpec dayjs dateRange (dayjs (VStr (timestamp r))).
Proof.
  unfold sampleKept. rewrite sampleInRange_accepts. apply acceptsInstant_spec.
Qed.

Lemma lastNamed_cons (n : string) (s : Series) (series : list Series) :
  lastNamed n (s :: series) =
  match lastNamed n series with
  | Some s' => Some s'
  | None => if String.eqb (name s) n then Some s else None
  end.
Proof.
  unfold lastNamed. simpl. destruct (String.eqb (name s) n).
  - rewrite last_cons. reflexivity.
  - now destruct (last _).
Qed.

Lemma lastNamed_Some (n : string) (series : list Series) (s : Series) :
  lastNamed n series = Some s -> In s series /\ name s = n.
Proof.
  unfold lastNamed. intros H. apply last_Some in H as [l' E].
  assert (I : In s (List.filter (fun s => String.eqb (name s) n) series)).
  { rewrite E. apply in_or_app. right. now left. }
  apply filter_In in I as [I N]. now apply String.eqb_eq in N.
Qed.

Lemma lastNamed_In (s : Series) (series : list Series) :
  In s series -> is_Some (lastNamed (name s) series).
Proof.
  intros I. unfold lastNamed. apply last_is_Some. intros E.
  assert (I' : In s (List.filter (fun s' => String.eqb (name s') (name s)) series)).
  { apply filter_In. split; [assumption | apply String.eqb_refl]. }
  rewrite E in I'. destruct I'.
Qed.

Lemma lastNamed_only (s : Series) (series : list Series) :
  In s series -> onlyOfItsName s series -> lastNamed (name s) series = Some s.
Proof.
  intros I U. destruct (lastNamed_In s series I) as [s' E].
  rewrite E. f_equal. apply lastNamed_Some in E as [I' N]. now apply U.
Qed.

Lemma getRows_setRows (k : string) (rows : list sample) (o : RowsObject)
    (n : string) :
  getRows (setRows k rows o) n = if String.eqb k n then Some rows else getRows o n.
Proof.
  unfold getRows, setRows.
  destruct (String.eqb_spec k n) as [-> | Hne].
  - destruct (String.eqb_spec n "__proto__") as [-> | Hn];
      cbn [ownRows protoRows]; [reflexivity | apply lookup_insert_eq].
  - destruct (String.eqb_spec k "__proto__") as [-> | Hk];
      destruct (String.eqb_spec n "__proto__") as [-> | Hn];
      cbn [ownRows protoRows]; try reflexivity; try congruence.
    now apply lookup_insert_ne.
Qed.

Lemma ownRows_setRows (k : string) (rows : list sample) (o : RowsObject)
    (n : string) :
  ownRows (setRows k rows o) !! n =
  if String.eqb n "__proto__" then ownRows o !! n
  else if String.eqb k n then Some rows else ownRows o !! n.
Proof.
  unfold setRows.
  destruct (String.eqb_spec n "__proto__") as [-> | Hn].
  - destruct (String.eqb_spec k "__proto__") as [-> | Hk];
      cbn [ownRows protoRows]; [reflexivity |].
    apply lookup_insert_ne. congruence.
  - destruct (String.eqb_spec k n) as [-> | Hne].
    + destruct (String.eqb_spec n "__proto__") as [-> | _]; [congruence |].
      cbn [ownRows protoRows]. apply lookup_insert_eq.
    + destruct (String.eqb_spec k "__proto__") as [-> | Hk];
        cbn [ownRows protoRows]; [reflexivity |].
      now apply lookup_insert_ne.
Qed.

Lemma resampled_fold (f : Series -> list sample) (series : list Series)
    (o : RowsObject) (n : string) :
  getRows (fold_left (fun map s => setRows (name s) (f s) map) series o) n =
  match lastNamed n series with
  | Some s => Some (f s)
  | None => getRows o n
  end.
Proof.
  revert o. induction series as [| s series IH]; intros o; [reflexivity |].
  simpl. rewrite IH, lastNamed_cons, getRows_setRows.
  destruct (lastNamed n series); [reflexivity |].
  now destruct (String.eqb (name s) n).
Qed.

Lemma resampled_fold_own (f : Series -> list sample) (series : list Series)
    (o : RowsObject) (n : string) :
  ownRows (fold_left (fun map s => setRows (name s) (f s) map) series o) !! n =
  if String.eqb n "__proto__" then ownRows o !! n
  else match lastNamed n series with
       | Some s => Some (f s)
       | None => ownRows o !! n
       end.
Proof.
  revert o. induction series as [| s series IH]; intros o.
  - simpl. now destruct (String.eqb n "__proto__").
  - simpl. rewrite IH, lastNamed_cons, ownRows_setRows.
    destruct (String.eqb n "__proto__"); [reflexivity |].
    destruct (lastNamed n series); [reflexivity |].
    now destruct (String.eqb (name s) n).
Qed.

(** Reading the object under a name gives the filtered samples of the
    last series of that name. *)
Lemma resampledBySeries_lookup (series : list Series) (dateRange : DateRange)
    (n : string) :
  getRows (resampledBySeries dayjs series dateRange) n =
  (fun s => List.filter (sampleKept dayjs dateRange) (resampled s)) <$> lastNamed n series.
Proof.
  unfold resampledBySeries.
  rewrite (resampled_fold (fun s => List.filter (sampleKept dayjs dateRange) (resampled s))).
  destruct (lastNamed n series); [reflexivity |].
  unfold getRows. simpl. destruct (String.eqb n "__proto__"); [reflexivity |].
  apply lookup_empty.
Qed.

(** The own properties of the object: none under [__proto__]. *)
Lemma resampledBySeries_own (series : list Series) (dateRange : DateRange)
    (n : string) :
  ownRows (resampledBySeries dayjs series dateRange) !! n =
  if String.eqb n "__proto__" then None
  else (fun s => List.filter (sampleKept dayjs dateRange) (resampled s))
         <$> lastNamed n series.
Proof.
  unfold resampledBySeries.
  rewrite (resampled_fold_own
             (fun s => List.filter (sampleKept dayjs dateRange) (resampled s))).
  simpl. destruct (String.eqb n "__proto__"); [apply lookup_empty |].
  destruct (lastNamed n series); [reflexivity | apply lookup_empty].
Qed.

Lemma resampledBySeries_proto (series : list Series) (dateRange : DateRange) :
  protoRows (resampledBySeries dayjs series dateRange) =
  (fun s => List.filter (sampleKept dayjs dateRange) (resampled s))
    <$> lastNamed "__proto__" series.
Proof. exact (resampledBySeries_lookup series dateRange "__proto__"). Qed.

End Resampled.

(** ** The range filter meets its contract *)

Lemma inRangeSpec_inclusiveAt (dayjs : jsval -> instant) (dateRange : DateRange)
    (t : instant) (accepted : bool) :
  (accepted = true <-> inRangeSpec dayjs dateRange t) ->
  inclusiveAt dayjs dateRange t accepted.
Proof.
  intros Hiff x ->. unfold inRangeSpec in Hiff. repeat split.
  - intros Hs He. apply Hiff. split.
    + right. exists x, x. repeat split; [assumption | lia].
    + destruct He as [He | (e & He & Hle)]; [now left |].
      right. now exists x, e.
  - intros He Hs. apply Hiff. split.
    + destruct Hs as [Hs | (s & Hs & Hle)]; [now left |].
      right. now exists x, s.
    + right. exists x, x. repeat split; [assumption | lia].
  - intros s Hne Hs Hlt. apply not_true_is_false. intros Hacc.
    apply Hiff in Hacc as [[? | (x' & s' & [= <-] & Hs' & Hle)] _].
    + contradiction.
    + rewrite Hs in Hs'. injection Hs' as <-. lia.
  - intros e Hne He Hlt. apply not_true_is_false. intros Hacc.
    apply Hiff in Hacc as [_ [? | (x' & e' & [= <-] & He' & Hle)]].
    + contradiction.
    + rewrite He in He'. injection He' as <-. lia.
Qed.

Section RangeContract.

Variable dayjs : jsval -> instant.

(** C2: the range filter accepts an instant exactly when each bound is
    absent or on the right side of it, both bounds inclusive: an instant
    equal to [start] or to [end] is kept, one strictly before [start] or
    strictly after [end] is dropped.  This is so for the rows of the chart
    and for the resampled samples of every series: what is read from the
    resampled object under the name of a series is the list of the
    resampled samples that the filter accepts (those of the last series of
    that name, which is the series itself when no other has its name), and
    every list the object holds, as an own entry or as its prototype, is
    of that kind. *)
Theorem range_filter_inclusive (dateRange : DateRange) :
  (forall row,
     rowInRange dayjs dateRange row = true
     <-> inRangeSpec dayjs dateRange (dayjs (getProp row "timestamp")))
  /\ (forall r,
        sampleKept dayjs dateRange r = true
        <-> inRangeSpec dayjs dateRange (dayjs (VStr (timestamp r))))
  /\ (forall series row,
        In row (mergedData dayjs series dateRange)
        <-> In row (map_values (mergeAll series))
            /\ inRangeSpec dayjs dateRange (dayjs (getProp row "timestamp")))
  /\ (forall series s,
        In s series ->
        exists s',
          In s' series /\ name s' = name s
          /\ (onlyOfItsName s series -> s' = s)
          /\ getRows (resampledBySeries dayjs series dateRange) (name s)
             = Some (List.filter (sampleKept dayjs dateRange) (resampled s'))
          /\ (name s <> "__proto__" ->
              ownRows (resampledBySeries dayjs series dateRange) !! name s
              = Some (List.filter (sampleKept dayjs dateRange) (resampled s')))
          /\ forall r,
               In r (List.filter (sampleKept dayjs dateRange) (resampled s'))
               <-> In r (resampled s')
                   /\ inRangeSpec dayjs dateRange (dayjs (VStr (timestamp r))))
  /\ (forall series n rows,
        ownRows (resampledBySeries dayjs series dateRange) !! n = Some rows
        \/ (n = "__proto__"
            /\ protoRows (resampledBySeries dayjs series dateRange) = Some rows) ->
        exists s, In s series /\ name s = n
                  /\ forall r, In r rows
                               <-> In r (resampled s)
                                   /\ inRangeSpec dayjs dateRange
                                        (dayjs (VStr (timestamp r))))
  /\ (forall row,
        inclusiveAt dayjs dateRange (dayjs (getProp row "timestamp"))
          (rowInRange dayjs dateRange row))
  /\ (forall r,
        inclusiveAt dayjs dateRange (dayjs (VStr (timestamp r)))
          (sampleKept dayjs dateRange r)).
Proof.
  split; [| split; [| split; [| split; [| split; [| split]]]]].
  - apply rowInRange_spec.
  - apply sampleKept_spec.
  - intros series row. apply filterStage_In.
  - intros series s I. destruct (lastNamed_In s series I) as [s' L].
    exists s'. destruct (lastNamed_Some _ _ _ L) as [I' N].
    split; [assumption |]. split; [assumption |]. split.
    { intros O. rewrite (lastNamed_only s series I O) in L. congruence. }
    split; [now rewrite resampledBySeries_lookup, L |]. split.
    { intros NP. rewrite resampledBySeries_own, L.
      apply String.eqb_neq in NP. now rewrite NP. }
    intros r. rewrite filter_In, sampleKept_spec. reflexivity.
  - intros series n rows E.
    assert (G : getRows (resampledBySeries dayjs series dateRange) n = Some rows).
    { destruct E as [E | [-> E]]; [| exact E].
      rewrite resampledBySeries_own in E. rewrite resampledBySeries_lookup.
      destruct (String.eqb n "__proto__"); [discriminate | assumption]. }
    rewrite resampledBySeries_lookup in G.
    destruct (lastNamed n series) as [s |] eqn:L; [| discriminate].
    injection G as <-. apply lastNamed_Some in L as [I N].
    exists s. split; [assumption | split; [assumption |]].
    intros r. rewrite filter_In, sampleKept_spec. reflexivity.
  - intros row. apply inRangeSpec_inclusiveAt, rowInRange_spec.
  - intros r. apply inRangeSpec_inclusiveAt, sampleKept_spec.
Qed.

(** C6: with both bounds absent the filter stage returns its input
    unchanged; with only [start] absent it tests the upper bound alone, and
    with only [end] absent the lower bound alone. *)
Theorem range_filter_identity :
  (forall arr, filterStage dayjs {| start := ""; end_ := "" |} arr = arr)
  /\ (forall series,
        mergedData dayjs series {| start := ""; end_ := "" |}
        = map_values (mergeAll series))
  /\ (forall e row,
        rowInRange dayjs {| start := ""; end_ := e |} row = true
        <-> e = ""
            \/ exists x y, dayjs (getProp row "timestamp") = Some x
                           /\ dayjs (VStr e) = Some y /\ (x <= y)%Z)
  /\ (forall s row,
        rowInRange dayjs {| start := s; end_ := "" |} row = true
        <-> s = ""
            \/ exists x y, dayjs (getProp row "timestamp") = Some x
                           /\ dayjs (VStr s) = Some y /\ (y <= x)%Z)
  /\ (forall dateRange arr row,
        In row (filterStage dayjs dateRange arr)
        <-> In row arr /\ rowInRange dayjs dateRange row = true).
Proof.
  split; [| split; [| split; [| split]]].
  - reflexivity.
  - reflexivity.
  - intros e row. rewrite rowInRange_spec. unfold inRangeSpec. simpl. tauto.
  - intros s row. rewrite rowInRange_spec. unfold inRangeSpec. simpl. tauto.
  - intros dateRange arr row. rewrite filterStage_In, rowInRange_spec. reflexivity.
Qed.

End RangeContract.

(** ** The insertion-ordered map *)

Lemma map_has_In (all : JsMap) (k : string) :
  map_has all k = true <-> In k (map fst all).
Proof.
  induction all as [| [k' o] all IH]; simpl.
  - split; [discriminate | tauto].
  - destruct (String.eqb_spec k' k) as [-> | Hne].
    + tauto.
    + rewrite IH. split; [tauto | intros [? | ?]; [contradiction | assumption]].
Qed.

Lemma map_has_includes (all : JsMap) (k : string) :
  map_has all k = includes (map fst all) k.
Proof.
  apply eq_true_iff_eq. rewrite map_has_In, includes_In. reflexivity.
Qed.

Lemma map_get_None (all : JsMap) (k : string) :
  map_get all k = None <-> map_has all k = false.
Proof.
  induction all as [| [k' o] all IH]; simpl; [tauto |].
  destruct (String.eqb k' k); [split; discriminate | assumption].
Qed.

Lemma In_map_get (all : JsMap) (k : string) (o : Row) :
  List.NoDup (map fst all) -> In (k, o) all -> map_get all k = Some o.
Proof.
  induction all as [| [k' o'] all IH]; simpl; [tauto |].
  intros ND [E | I].
  - injection E as -> ->. now rewrite String.eqb_refl.
  - apply List.NoDup_cons_iff in ND as [Hk ND].
    destruct (String.eqb_spec k' k) as [-> | Hne].
    + exfalso. apply Hk. apply (in_map fst) in I. exact I.
    + now apply IH.
Qed.

Lemma map_set_absent (k : string) (o : Row) (all : JsMap) :
  map_has all k = false -> map_set k o all = all ++ [(k, o)].
Proof.
  induction all as [| [k' o'] all IH]; simpl; [reflexivity |].
  destruct (String.eqb k' k); [discriminate |].
  intros H. now rewrite IH.
Qed.

Lemma map_modify_keys (k : string) (f : Row -> Row) (all : JsMap) :
  map fst (map_modify k f all) = map fst all.
Proof.
  induction all as [| [k' o] all IH]; simpl; [reflexivity |].
  destruct (String.eqb k' k); simpl; [reflexivity | now rewrite IH].
Qed.

Lemma map_get_modify (k : string) (f : Row -> Row) (all : JsMap) (k' : string) :
  map_get (map_modify k f all) k' =
  if String.eqb k' k then f <$> map_get all k' else map_get all k'.
Proof.
  induction all as [| [k0 o] all IH]; simpl.
  - now destruct (String.eqb k' k).
  - destruct (String.eqb_spec k0 k) as [-> | Hne]; simpl.
    + destruct (String.eqb_spec k k') as [<- | Hne'].
      * now rewrite String.eqb_refl.
      * apply not_eq_sym, String.eqb_neq in Hne'. now rewrite Hne'.
    + destruct (String.eqb_spec k0 k') as [<- | Hne'].
      * apply String.eqb_neq in Hne. now rewrite Hne.
      * exact IH.
Qed.

Lemma map_get_snoc (all : JsMap) (k : string) (o : Row) (k' : string) :
  map_get (all ++ [(k, o)]) k' =
  match map_get all k' with
  | Some r => Some r
  | None => if String.eqb k k' then Some o else None
  end.
Proof.
  induction all as [| [k0 o0] all IH]; simpl; [reflexivity |].
  now destruct (String.eqb k0 k').
Qed.

(** ** One write *)

Lemma addSample_keys (s : Series) (all : JsMap) (d : sample) :
  map fst (addSample s all d) =
  if map_has all (timeLabel d) then map fst all else map fst all ++ [timeLabel d].
Proof.
  unfold addSample. rewrite map_modify_keys.
  destruct (map_has all (timeLabel d)) eqn:H; simpl; [reflexivity |].
  rewrite (map_set_absent _ _ _ H), map_app. reflexivity.
Qed.

Lemma addSample_get (s : Series) (all : JsMap) (d : sample) (L : string) :
  map_get (addSample s all d) L =
  if String.eqb L (timeLabel d)
  then Some (setProp (name s) (VNum (temperature d))
               (default (newRow d) (map_get all (timeLabel d))))
  else map_get all L.
Proof.
  unfold addSample. rewrite map_get_modify.
  destruct (map_has all (timeLabel d)) eqn:H; simpl.
  - destruct (String.eqb_spec L (timeLabel d)) as [-> | Hne]; [| reflexivity].
    destruct (map_get all (timeLabel d)) eqn:G; [reflexivity |].
    apply map_get_None in G. congruence.
  - rewrite (map_set_absent _ _ _ H), map_get_snoc.
    apply map_get_None in H.
    destruct (String.eqb_spec L (timeLabel d)) as [-> | Hne].
    + rewrite H, String.eqb_refl. reflexivity.
    + destruct (map_get all L); [reflexivity |].
      apply not_eq_sym, String.eqb_neq in Hne. now rewrite Hne.
Qed.

Lemma mergeAll_applyWrites (series : list Series) :
  mergeAll series = applyWrites (writes series) [].
Proof.
  unfold mergeAll, applyWrites. generalize (@nil (string * Row)) as all.
  induction series as [| s series IH]; intros all; [reflexivity |].
  simpl. rewrite fold_left_app, IH. f_equal.
  unfold addSeries. generalize all. clear.
  induction (data s) as [| d ds IH]; intros all; [reflexivity |].
  simpl. apply IH.
Qed.

(** ** First occurrences *)

Lemma filter_filter_and {A} (p q : A -> bool) (l : list A) :
  List.filter p (List.filter q l) = List.filter (fun x => q x && p x) l.
Proof.
  induction l as [| a l IH]; simpl; [reflexivity |].
  destruct (q a); simpl; [destruct (p a) |]; now rewrite IH.
Qed.

Lemma filter_all {A} (p : A -> bool) (l : list A) :
  (forall x, In x l -> p x = true) -> List.filter p l = l.
Proof.
  induction l as [| a l IH]; simpl; intros H; [reflexivity |].
  rewrite (H a) by now left. f_equal. apply IH. intros x I. apply H. now right.
Qed.

Lemma In_firstSeen (l : list string) (x : string) :
  In x (firstSeen l) <-> In x l.
Proof.
  induction l as [| y l IH]; simpl; [reflexivity |].
  rewrite filter_In, negb_true_iff, String.eqb_neq, IH.
  destruct (string_dec y x); intuition congruence.
Qed.

Lemma NoDup_firstSeen (l : list string) : List.NoDup (firstSeen l).
Proof.
  induction l as [| y l IH]; simpl; constructor.
  - rewrite filter_In, negb_true_iff, String.eqb_neq. tauto.
  - now apply List.NoDup_filter.
Qed.

(** ** All the writes: the keys of the map *)

Lemma includes_app (arr : list string) (k x : string) :
  includes (arr ++ [k]) x = includes arr x || String.eqb x k.
Proof.
  unfold includes. rewrite existsb_app. simpl. now rewrite orb_false_r.
Qed.

Lemma applyWrites_keys (ws : list (Series * sample)) (all : JsMap) :
  map fst (applyWrites ws all) =
  map fst all
  ++ List.filter (fun L => negb (includes (map fst all) L)) (firstSeen (labels ws)).
Proof.
  revert all. induction ws as [| [s d] ws IH]; intros all.
  - simpl. now rewrite app_nil_r.
  - change (applyWrites ((s, d) :: ws) all) with (applyWrites ws (addSample s all d)).
    rewrite IH, addSample_keys. simpl labels. simpl firstSeen. simpl List.filter.
    rewrite filter_filter_and, map_has_includes.
    destruct (includes (map fst all) (timeLabel d)) eqn:H; simpl.
    + f_equal. apply filter_ext_in. intros x _.
      destruct (String.eqb_spec x (timeLabel d)) as [-> | Hne]; simpl.
      * now rewrite H.
      * reflexivity.
    + rewrite <- app_assoc. simpl. do 2 f_equal. apply filter_ext. intros x.
      rewrite includes_app, negb_orb. apply andb_comm.
Qed.

Lemma mergeAll_keys (series : list Series) :
  map fst (mergeAll series) = firstSeen (labels (writes series)).
Proof.
  rewrite mergeAll_applyWrites, applyWrites_keys. simpl.
  apply filter_all. reflexivity.
Qed.

Lemma mergeAll_NoDup (series : list Series) : List.NoDup (map fst (mergeAll series)).
Proof. rewrite mergeAll_keys. apply NoDup_firstSeen. Qed.

(** ** All the writes: the rows of the map *)

Lemma lastWrite_snoc (k L : string) (ws : list (Series * sample)) (w : Series * sample) :
  lastWrite k L (ws ++ [w]) =
  if String.eqb (name (fst w)) k && String.eqb (timeLabel (snd w)) L
  then Some (snd w)
  else lastWrite k L ws.
Proof.
  unfold lastWrite. rewrite List.filter_app. simpl.
  destruct (String.eqb (name (fst w)) k && String.eqb (timeLabel (snd w)) L).
  - now rewrite last_snoc.
  - now rewrite app_nil_r.
Qed.

Lemma firstWith_snoc (L : string) (ws : list (Series * sample)) (w : Series * sample) :
  firstWith L (ws ++ [w]) =
  match firstWith L ws with
  | Some d => Some d
  | None => if String.eqb (timeLabel (snd w)) L then Some (snd w) else None
  end.
Proof.
  unfold firstWith. rewrite List.filter_app. simpl.
  destruct (List.filter _ ws) as [| a l]; simpl.
  - now destruct (String.eqb (timeLabel (snd w)) L).
  - reflexivity.
Qed.

Lemma firstWith_absent (L : string) (ws : list (Series * sample)) :
  ~ In L (labels ws) -> firstWith L ws = None.
Proof.
  intros H. unfold firstWith.
  destruct (List.filter _ ws) as [| a l] eqn:E; [reflexivity |].
  exfalso. apply H.
  assert (I : In a (List.filter (fun w => String.eqb (timeLabel (snd w)) L) ws)).
  { rewrite E. now left. }
  apply filter_In in I as [I N]. apply String.eqb_eq in N. subst L.
  unfold labels. apply in_map_iff. now exists a.
Qed.

Lemma firstWith_present (L : string) (ws : list (Series * sample)) :
  In L (labels ws) ->
  exists d, firstWith L ws = Some d /\ timeLabel d = L /\ In d (map snd ws).
Proof.
  intros H. unfold labels in H. apply in_map_iff in H as (w & E & I).
  unfold firstWith.
  destruct (List.filter (fun w => String.eqb (timeLabel (snd w)) L) ws) as [| a l] eqn:F.
  - exfalso.
    assert (I' : In w (List.filter (fun w => String.eqb (timeLabel (snd w)) L) ws)).
    { apply filter_In. split; [assumption | now apply String.eqb_eq]. }
    rewrite F in I'. destruct I'.
  - assert (I' : In a (List.filter (fun w => String.eqb (timeLabel (snd w)) L) ws)).
    { rewrite F. now left. }
    apply filter_In in I' as [I' N]. apply String.eqb_eq in N.
    exists (snd a). simpl. repeat split; [assumption | now apply in_map].
Qed.

Lemma lastWrite_absent (k L : string) (ws : list (Series * sample)) :
  ~ In L (labels ws) -> lastWrite k L ws = None.
Proof.
  intros H. unfold lastWrite.
  destruct (last _) as [a |] eqn:E; [| reflexivity].
  exfalso. apply H. apply last_Some in E as [l' E].
  assert (I : In a (List.filter
                      (fun w => String.eqb (name (fst w)) k
                                && String.eqb (timeLabel (snd w)) L) ws)).
  { rewrite E. apply in_or_app. right. now left. }
  apply filter_In in I as [I N]. apply andb_true_iff in N as [_ N].
  apply String.eqb_eq in N. subst L. unfold labels. apply in_map_iff. now exists a.
Qed.

Lemma applyWrites_get_None (ws : list (Series * sample)) (L : string) :
  map_get (applyWrites ws []) L = None <-> ~ In L (labels ws).
Proof.
  rewrite map_get_None, <- not_true_iff_false, map_has_In, applyWrites_keys.
  simpl. rewrite filter_all by reflexivity. now rewrite In_firstSeen.
Qed.

Lemma newRow_lookup (d : sample) (k : string) :
  newRow d !! k =
  if String.eqb k "timeLabel" then Some (VStr (timeLabel d))
  else if String.eqb k "timestamp" then Some (VStr (timestamp d))
  else None.
Proof.
  unfold newRow.
  destruct (String.eqb_spec k "timeLabel") as [-> | H1]; [apply lookup_insert_eq |].
  rewrite lookup_insert_ne by congruence.
  destruct (String.eqb_spec k "timestamp") as [-> | H2]; [apply lookup_singleton_eq |].
  apply lookup_singleton_ne. congruence.
Qed.

Lemma setProp_lookup (n : string) (v : jsval) (o : Row) (k : string) :
  setProp n v o !! k =
  if negb (String.eqb n "__proto__") && String.eqb k n then Some v else o !! k.
Proof.
  unfold setProp. destruct (String.eqb n "__proto__"); simpl; [reflexivity |].
  destruct (String.eqb_spec k n) as [-> | Hne]; [apply lookup_insert_eq |].
  apply lookup_insert_ne. congruence.
Qed.

Lemma applyWrites_snoc (ws : list (Series * sample)) (w : Series * sample) (all : JsMap) :
  applyWrites (ws ++ [w]) all = addSample (fst w) (applyWrites ws all) (snd w).
Proof. unfold applyWrites. now rewrite fold_left_app. Qed.

Lemma expectedProp_other (k L : string) (ws : list (Series * sample)) (w : Series * sample) :
  timeLabel (snd w) <> L ->
  expectedProp k L (ws ++ [w]) = expectedProp k L ws.
Proof.
  intros Hne. apply String.eqb_neq in Hne. unfold expectedProp.
  rewrite lastWrite_snoc, firstWith_snoc, Hne, andb_false_r.
  now destruct (firstWith L ws).
Qed.

Lemma applyWrites_get (ws : list (Series * sample)) (L : string) (row : Row) :
  map_get (applyWrites ws []) L = Some row ->
  forall k, row !! k = expectedProp k L ws.
Proof.
  revert L row. induction ws as [| [s d] ws IH] using rev_ind; intros L row G k.
  - discriminate.
  - rewrite applyWrites_snoc, addSample_get in G. simpl fst in G. simpl snd in G.
    destruct (String.eqb_spec L (timeLabel d)) as [-> | Hne].
    + injection G as <-. rewrite setProp_lookup.
      unfold expectedProp. rewrite lastWrite_snoc, firstWith_snoc.
      simpl fst. simpl snd. rewrite String.eqb_refl, andb_true_r.
      destruct (map_get (applyWrites ws []) (timeLabel d)) as [row0 |] eqn:G0; simpl default.
      * assert (P : In (timeLabel d) (labels ws)).
        { destruct (in_dec string_dec (timeLabel d) (labels ws)) as [I | N]; [assumption |].
          apply applyWrites_get_None in N. congruence. }
        apply firstWith_present in P as (d0 & F & _).
        rewrite (IH _ _ G0 k). unfold expectedProp. rewrite F.
        destruct (String.eqb_spec k (name s)) as [-> | Hk].
        -- rewrite String.eqb_refl. now destruct (String.eqb (name s) "__proto__").
        -- apply not_eq_sym, String.eqb_neq in Hk. rewrite Hk, andb_false_r. reflexivity.
      * apply applyWrites_get_None in G0.
        rewrite (lastWrite_absent _ _ _ G0), (firstWith_absent _ _ G0), newRow_lookup.
        destruct (String.eqb_spec k (name s)) as [-> | Hk].
        -- rewrite String.eqb_refl. now destruct (String.eqb (name s) "__proto__").
        -- apply not_eq_sym, String.eqb_neq in Hk. rewrite Hk, andb_false_r. simpl.
           now destruct (String.eqb k "__proto__").
    + rewrite expectedProp_other by (simpl; congruence). now apply IH.
Qed.

(** ** The merged rows *)

Lemma writes_In (series : list Series) (s : Series) (d : sample) :
  In (s, d) (writes series) <-> In s series /\ In d (data s).
Proof.
  unfold writes. rewrite in_flat_map. split.
  - intros (s' & I & M). apply in_map_iff in M as (d' & [= -> ->] & M). now split.
  - intros [I M]. exists s. split; [assumption |]. now apply in_map.
Qed.

Lemma writes_label (series : list Series) (s : Series) (d : sample) :
  In s series -> In d (data s) -> In (timeLabel d) (labels (writes series)).
Proof.
  intros I M. unfold labels. apply in_map_iff. exists (s, d).
  split; [reflexivity | now apply writes_In].
Qed.

Lemma mergeAll_entry (series : list Series) (L : string) (row : Row) :
  In (L, row) (mergeAll series) ->
  forall k, row !! k = expectedProp k L (writes series).
Proof.
  intros I. apply applyWrites_get. rewrite <- mergeAll_applyWrites.
  apply In_map_get; [apply mergeAll_NoDup | assumption].
Qed.

Lemma nth_error_values (all : JsMap) (i : nat) (row : Row) :
  nth_error (map_values all) i = Some row
  <-> exists L, nth_error all i = Some (L, row).
Proof.
  unfold map_values. rewrite nth_error_map. split.
  - destruct (nth_error all i) as [[L r] |]; simpl; [| discriminate].
    intros [= ->]. now exists L.
  - intros [L ->]. reflexivity.
Qed.

Lemma In_values (all : JsMap) (row : Row) :
  In row (map_values all) <-> exists L, In (L, row) all.
Proof.
  unfold map_values. rewrite in_map_iff. split.
  - intros ([L r] & E & I). simpl in E. subst r. now exists L.
  - intros [L I]. now exists (L, row).
Qed.

Lemma lastWrite_none_named (k L : string) (ws : list (Series * sample)) :
  (forall w, In w ws -> name (fst w) <> k) -> lastWrite k L ws = None.
Proof.
  intros H. unfold lastWrite. rewrite (proj2 (last_None _)); [reflexivity |].
  destruct (List.filter _ ws) as [| a l] eqn:E; [reflexivity |].
  exfalso.
  assert (I : In a (List.filter
                      (fun w => String.eqb (name (fst w)) k
                                && String.eqb (timeLabel (snd w)) L) ws)).
  { rewrite E. now left. }
  apply filter_In in I as [I N]. apply andb_true_iff in N as [N _].
  apply String.eqb_eq in N. now apply (H a).
Qed.

Lemma no_write_named (series : list Series) (k : string) :
  (forall s, In s series -> name s <> k) ->
  forall w, In w (writes series) -> name (fst w) <> k.
Proof.
  intros H [s d] I. apply writes_In in I as [I _]. now apply H.
Qed.

Lemma row_timeLabel (series : list Series) (L : string) (row : Row) :
  (forall s, In s series -> name s <> "timeLabel") ->
  In (L, row) (mergeAll series) ->
  row !! "timeLabel" = Some (VStr L).
Proof.
  intros H I. rewrite (mergeAll_entry _ _ _ I). unfold expectedProp.
  rewrite lastWrite_none_named by now apply no_write_named. reflexivity.
Qed.

Lemma row_timestamp (series : list Series) (L : string) (row : Row) :
  (forall s, In s series -> name s <> "timestamp") ->
  In (L, row) (mergeAll series) ->
  row !! "timestamp" = (fun d => VStr (timestamp d)) <$> firstWith L (writes series).
Proof.
  intros H I. rewrite (mergeAll_entry _ _ _ I). unfold expectedProp.
  rewrite lastWrite_none_named by now apply no_write_named. reflexivity.
Qed.

(** A label that occurs in the batch has its row, and no other row
    carries it. *)
Lemma unique_row (series : list Series) (L : string) :
  (forall s, In s series -> name s <> "timeLabel") ->
  In L (labels (writes series)) ->
  exists i row,
    nth_error (mergeAll series) i = Some (L, row)
    /\ forall j row', nth_error (map_values (mergeAll series)) j = Some row' ->
                      row' !! "timeLabel" = Some (VStr L) -> j = i.
Proof.
  intros H P. apply In_firstSeen in P. rewrite <- mergeAll_keys in P.
  apply In_nth_error in P as [i E]. rewrite nth_error_map in E.
  destruct (nth_error (mergeAll series) i) as [[L0 row] |] eqn:N; [| discriminate].
  injection E as ->. exists i, row. split; [exact N |].
  intros j row' N' T. apply nth_error_values in N' as [L' N'].
  assert (L' = L) as ->.
  { apply nth_error_In in N'. rewrite (row_timeLabel _ _ _ H N') in T. congruence. }
  apply (proj1 (NoDup_nth_error _) (mergeAll_NoDup series)).
  - rewrite length_map. apply nth_error_Some. congruence.
  - now rewrite !nth_error_map, N, N'.
Qed.

(** ** Last write of a series *)

Lemma lastWrite_app (k L : string) (ws1 ws2 : list (Series * sample)) :
  lastWrite k L (ws1 ++ ws2) =
  match lastWrite k L ws2 with
  | Some d => Some d
  | None => lastWrite k L ws1
  end.
Proof.
  unfold lastWrite. rewrite List.filter_app, last_app.
  now destruct (last (List.filter _ ws2)).
Qed.

Lemma lastWrite_own (L : string) (s : Series) :
  lastWrite (name s) L (map (pair s) (data s)) = lastLabelled L s.
Proof.
  unfold lastWrite, lastLabelled.
  induction (data s) as [| d ds IH] using rev_ind; [reflexivity |].
  rewrite map_app, !List.filter_app. simpl.
  rewrite String.eqb_refl. simpl.
  destruct (String.eqb (timeLabel d) L).
  - now rewrite !last_snoc.
  - now rewrite !app_nil_r.
Qed.

Lemma lastWrite_foreign (k L : string) (s : Series) :
  name s <> k -> lastWrite k L (map (pair s) (data s)) = None.
Proof.
  intros H. apply lastWrite_none_named. intros w I.
  apply in_map_iff in I as (d & <- & _). exact H.
Qed.

Lemma lastWrite_only (L : string) (s : Series) (series : list Series) :
  onlyOfItsName s series ->
  lastWrite (name s) L (writes series) =
  if existsb (fun s' => String.eqb (name s') (name s)) series
  then lastLabelled L s
  else None.
Proof.
  induction series as [| s' series IH]; intros U; [reflexivity |].
  change (writes (s' :: series)) with (map (pair s') (data s') ++ writes series).
  rewrite lastWrite_app, IH by (intros x I; apply U; now right).
  simpl. destruct (String.eqb_spec (name s') (name s)) as [E | N]; simpl.
  - rewrite (U s' (or_introl eq_refl) E), lastWrite_own.
    destruct (existsb _ series); [now destruct (lastLabelled L s) | reflexivity].
  - rewrite lastWrite_foreign by assumption.
    now destruct (if existsb _ series then _ else _).
Qed.

Lemma lastWrite_present (series : list Series) (s : Series) (d : sample) :
  In s series -> In d (data s) ->
  exists x, lastWrite (name s) (timeLabel d) (writes series) = Some x.
Proof.
  intros I M. unfold lastWrite.
  destruct (last _) as [a |] eqn:E; [now exists (snd a) |].
  exfalso. apply last_None in E.
  assert (I' : In (s, d) (List.filter
                            (fun w => String.eqb (name (fst w)) (name s)
                                      && String.eqb (timeLabel (snd w)) (timeLabel d))
                            (writes series))).
  { apply filter_In. split; [now apply writes_In |].
    simpl. now rewrite !String.eqb_refl. }
  rewrite E in I'. destruct I'.
Qed.

(** C3, amended: in a batch where no series is named [timeLabel], every
    pair of a series name (other than [__proto__]) and a label of one of
    its samples is a present key of exactly one merged row carrying that
    label, and the value under the name is the temperature of the last
    sample carrying the label among the series of that name, in stored
    order; when the series is the only one of its name, this is the last
    such sample of that series. *)
Theorem merge_complete_last_write (sr : list Series) (s : Series) (d : sample) :
  In s sr -> In d (data s) ->
  (forall s', In s' sr -> name s' <> "timeLabel") ->
  name s <> "__proto__" ->
  exists i row x,
    nth_error (map_values (mergeAll sr)) i = Some row
    /\ row !! "timeLabel" = Some (VStr (timeLabel d))
    /\ (forall j row', nth_error (map_values (mergeAll sr)) j = Some row' ->
                       row' !! "timeLabel" = Some (VStr (timeLabel d)) -> j = i)
    /\ lastWrite (name s) (timeLabel d) (writes sr) = Some x
    /\ row !! name s = Some (VNum (temperature x))
    /\ (onlyOfItsName s sr -> lastLabelled (timeLabel d) s = Some x).
Proof.
  intros I M NoLabel NoProto.
  destruct (unique_row sr (timeLabel d) NoLabel (writes_label _ _ _ I M))
    as (i & row & N & U).
  destruct (lastWrite_present sr s d I M) as [x W].
  assert (E : In (timeLabel d, row) (mergeAll sr)) by now apply nth_error_In in N.
  exists i, row, x. split; [| split; [| split; [| split; [| split]]]].
  - apply nth_error_values. now exists (timeLabel d).
  - now apply (row_timeLabel sr).
  - exact U.
  - exact W.
  - rewrite (mergeAll_entry _ _ _ E). unfold expectedProp.
    apply String.eqb_neq in NoProto. now rewrite NoProto, W.
  - intros O. rewrite (lastWrite_only _ _ _ O) in W.
    destruct (existsb _ sr); [assumption | discriminate].
Qed.

Lemma merge_complete_last_write_witness :
  exists i row x,
    nth_error (map_values (mergeAll [Fixtures.fileA; Fixtures.fileB])) i = Some row
    /\ row !! "timeLabel" = Some (VStr "01/01 10:00")
    /\ (forall j row',
          nth_error (map_values (mergeAll [Fixtures.fileA; Fixtures.fileB])) j = Some row' ->
          row' !! "timeLabel" = Some (VStr "01/01 10:00") -> j = i)
    /\ lastWrite "B.xlsx" "01/01 10:00" (writes [Fixtures.fileA; Fixtures.fileB]) = Some x
    /\ row !! "B.xlsx" = Some (VNum (temperature x))
    /\ (onlyOfItsName Fixtures.fileB [Fixtures.fileA; Fixtures.fileB] ->
        lastLabelled "01/01 10:00" Fixtures.fileB = Some x).
Proof.
  apply (merge_complete_last_write [Fixtures.fileA; Fixtures.fileB] Fixtures.fileB
           (Fixtures.mkSample "2024-01-01T10:00" 22.0)).
  - right. left. reflexivity.
  - left. reflexivity.
  - intros s' [<- | [<- | []]]; discriminate.
  - discriminate.
Defined.

(** C3 as the specification words it fails on three batches: with two
    files of one name the row holds the reading of the second file, not the last
    reading of the first; with a file named [timeLabel] no row carries the
    label any more; with a file named [__proto__] the key stays absent. *)
Lemma merge_complete_counterexample :
  (In Fixtures.twin1 [Fixtures.twin1; Fixtures.twin2]
   /\ lastLabelled "01/01 10:00" Fixtures.twin1
      = Some (Fixtures.mkSample "2024-01-01T10:00" 20.0)
   /\ map (fun row => row !! "a.csv")
        (map_values (mergeAll [Fixtures.twin1; Fixtures.twin2]))
      = [Some (VNum 22.0)]
   /\ VNum 22.0 <> VNum 20.0)
  /\ (map timeLabel (data (Fixtures.oneSample "timeLabel")) = ["01/01 10:00"]
      /\ map (fun row => row !! "timeLabel")
           (map_values (mergeAll [Fixtures.oneSample "timeLabel"]))
         = [Some (VNum 20.0)])
  /\ (map timeLabel (data (Fixtures.oneSample "__proto__")) = ["01/01 10:00"]
      /\ map (fun row => row !! "__proto__")
           (map_values (mergeAll [Fixtures.oneSample "__proto__"]))
         = [None]).
Proof.
  split; [| split].
  - split; [now left |]. split; [reflexivity |]. split; [reflexivity |].
    intros E.
    apply (f_equal (fun v => match v with
                             | VNum x => PrimFloat.eqb x 20.0
                             | _ => true
                             end)) in E.
    vm_compute in E. discriminate.
  - split; reflexivity.
  - split; reflexivity.
Qed.

(** ** Row order *)

Lemma sublist_filter_bool {A} (p : A -> bool) (l : list A) :
  sublist (List.filter p l) l.
Proof.
  induction l as [| a l IH]; simpl; [constructor |].
  destruct (p a); now constructor.
Qed.

Lemma filterStage_filter (dayjs : jsval -> instant) (dateRange : DateRange)
    (arr : list Row) :
  filterStage dayjs dateRange arr =
  List.filter
    (fun row => negb (truthy (start dateRange) || truthy (end_ dateRange))
                || rowInRange dayjs dateRange row) arr.
Proof.
  unfold filterStage.
  destruct (truthy (start dateRange) || truthy (end_ dateRange)); simpl.
  - reflexivity.
  - symmetry. now apply filter_all.
Qed.

Lemma rows_timeLabels (sr : list Series) :
  (forall s, In s sr -> name s <> "timeLabel") ->
  map (fun row => row !! "timeLabel") (map_values (mergeAll sr))
  = map (fun L => Some (VStr L)) (firstSeen (labels (writes sr))).
Proof.
  intros H. rewrite <- mergeAll_keys. unfold map_values. rewrite !map_map.
  apply map_ext_in. intros [L row] I. simpl. now apply (row_timeLabel sr).
Qed.

(** C4: the entries of the merge are in the order in which their labels
    are first met when the series are visited in stored order and the
    samples of each series in stored order; the rows are the values of
    these entries in that order (each carrying its label, provided no
    series is named [timeLabel]), the range filter only deletes rows from
    this sequence, and nothing sorts it: a later series that starts
    earlier gives rows that go back in time. *)
Theorem rows_in_first_encounter_order :
  (forall sr, map fst (mergeAll sr) = firstSeen (labels (writes sr)))
  /\ (forall sr,
        (forall s, In s sr -> name s <> "timeLabel") ->
        map (fun row => row !! "timeLabel") (map_values (mergeAll sr))
        = map (fun L => Some (VStr L)) (firstSeen (labels (writes sr))))
  /\ (forall dayjs sr dr,
        mergedData dayjs sr dr
        = List.filter
            (fun row => negb (truthy (start dr) || truthy (end_ dr))
                        || rowInRange dayjs dr row)
            (map_values (mergeAll sr)))
  /\ (forall dayjs sr dr,
        sublist (mergedData dayjs sr dr) (map_values (mergeAll sr)))
  /\ map (fun row => DayjsUTC.dayjs 0 (getProp row "timestamp"))
       (mergedData (DayjsUTC.dayjs 0) [Fixtures.late; Fixtures.early]
          {| start := ""; end_ := "" |})
     = [Some 1704106800000%Z; Some 1704103200000%Z].
Proof.
  split; [| split; [| split; [| split]]].
  - apply mergeAll_keys.
  - apply rows_timeLabels.
  - intros dayjs sr dr. apply filterStage_filter.
  - intros dayjs sr dr. unfold mergedData. rewrite filterStage_filter.
    apply sublist_filter_bool.
  - reflexivity.
Qed.

Lemma rows_in_first_encounter_order_witness :
  map (fun row => row !! "timeLabel")
    (map_values (mergeAll [Fixtures.fileA; Fixtures.fileB]))
  = map (fun L => Some (VStr L))
      (firstSeen (labels (writes [Fixtures.fileA; Fixtures.fileB]))).
Proof.
  apply (proj1 (proj2 rows_in_first_encounter_order)).
  intros s [<- | [<- | []]]; discriminate.
Defined.

(** ** First-encounter timestamp *)

(** C10, amended: in a batch where no series is named [timeLabel] or
    [timestamp], every merged row carries a label of the batch and the
    timestamp of the first sample visited with that label; samples with
    the same label share that one row, and the range filter tests the
    first-met timestamp only.  The chart label leaves the year out: two
    readings one year apart get the same label and one row, which the
    filter judges by the first reading. *)
Theorem first_encounter_timestamp :
  (forall dayjs sr dr row,
     (forall s, In s sr -> name s <> "timeLabel" /\ name s <> "timestamp") ->
     In row (mergedData dayjs sr dr) ->
     exists L d0,
       row !! "timeLabel" = Some (VStr L)
       /\ firstWith L (writes sr) = Some d0
       /\ timeLabel d0 = L
       /\ row !! "timestamp" = Some (VStr (timestamp d0))
       /\ (exists i,
             nth_error (map_values (mergeAll sr)) i = Some row
             /\ forall j row', nth_error (map_values (mergeAll sr)) j = Some row' ->
                               row' !! "timeLabel" = Some (VStr L) -> j = i)
       /\ (rowInRange dayjs dr row = true
           <-> inRangeSpec dayjs dr (dayjs (VStr (timestamp d0)))))
  /\ (let dayjs := DayjsUTC.dayjs 0 in
      let uploaded :=
        series (fst (onUpload dayjs DayjsUTC.format Fixtures.pickyPost
                       (setFiles [Fixtures.file "a.csv"] initialState)
                       {| server := 0; sent := [] |})) in
      map (fun s => map (fun d => (timestamp d, timeLabel d)) (data s)) uploaded
      = [[("2022-03-01T10:00", "01/03 10:00"); ("2023-03-01T10:00", "01/03 10:00")]]
      /\ dayjs (VStr "2023-03-01T10:00")
         = (fun t => t + 365 * DayjsUTC.msPerDay)%Z <$> dayjs (VStr "2022-03-01T10:00")
      /\ map (fun row => (row !! "timeLabel", row !! "timestamp", row !! "a.csv"))
           (mergedData dayjs uploaded {| start := ""; end_ := "" |})
         = [(Some (VStr "01/03 10:00"), Some (VStr "2022-03-01T10:00"),
             Some (VNum 25.0))]
      /\ mergedData dayjs uploaded {| start := "2023-01-01T00:00"; end_ := "" |} = []).
Proof.
  split.
  - intros dayjs sr dr row Names I.
    assert (I0 : In row (map_values (mergeAll sr))).
    { unfold mergedData in I. now apply filterStage_In in I. }
    apply In_values in I0 as [L E].
    assert (NL : forall s, In s sr -> name s <> "timeLabel") by (intros s Hs; now apply Names).
    assert (NT : forall s, In s sr -> name s <> "timestamp") by (intros s Hs; now apply Names).
    assert (P : In L (labels (writes sr))).
    { apply In_firstSeen. rewrite <- mergeAll_keys. apply in_map_iff. now exists (L, row). }
    destruct (firstWith_present L (writes sr) P) as (d0 & F & LE & _).
    pose proof (row_timestamp sr L row NT E) as TS. rewrite F in TS. simpl in TS.
    exists L, d0. split; [now apply (row_timeLabel sr) |].
    split; [exact F |]. split; [exact LE |]. split; [exact TS |]. split.
    + destruct (unique_row sr L NL P) as (i & row0 & N & U).
      exists i. split; [| exact U].
      apply nth_error_values. exists L.
      pose proof (In_map_get _ _ _ (mergeAll_NoDup sr) E) as G.
      pose proof (In_map_get _ _ _ (mergeAll_NoDup sr) (nth_error_In _ _ N)) as G0.
      congruence.
    + rewrite rowInRange_spec. unfold getProp. rewrite TS. reflexivity.
  - repeat split; reflexivity.
Qed.


Lemma hd_In {A} (d : A) (l : list A) : length l <> 0 -> In (hd d l) l.
Proof. destruct l; simpl; [congruence | now left]. Qed.

Lemma first_encounter_timestamp_witness :
  exists row L d0,
    In row (mergedData (DayjsUTC.dayjs 0) [Fixtures.fileA; Fixtures.fileB]
              {| start := "2024-01-01T11:00"; end_ := "2024-01-01T11:00" |})
    /\ row !! "timeLabel" = Some (VStr L)
    /\ firstWith L (writes [Fixtures.fileA; Fixtures.fileB]) = Some d0
    /\ timeLabel d0 = L
    /\ row !! "timestamp" = Some (VStr (timestamp d0)).
Proof.
  pose (dr := {| start := "2024-01-01T11:00"; end_ := "2024-01-01T11:00" |}).
  pose (sr := [Fixtures.fileA; Fixtures.fileB]).
  pose (row := hd (∅ : Row) (mergedData (DayjsUTC.dayjs 0) sr dr)).
  assert (I : In row (mergedData (DayjsUTC.dayjs 0) sr dr)).
  { apply hd_In. vm_compute. discriminate. }
  destruct (proj1 first_encounter_timestamp (DayjsUTC.dayjs 0) sr dr row)
    as (L & d0 & H1 & H2 & H3 & H4 & _).
  - intros s [<- | [<- | []]]; split; discriminate.
  - exact I.
  - exists row, L, d0.
    split; [exact I |]. split; [exact H1 |]. split; [exact H2 |].
    split; [exact H3 | exact H4].
Defined.

(** C10 as first worded fails for a file named [timestamp]: its
    reading replaces the timestamp of the row; and for a file named
    [timeLabel], whose reading replaces the label. *)
Lemma first_encounter_timestamp_counterexample :
  (map timestamp (data (Fixtures.oneSample "timestamp")) = ["2024-01-01T10:00"]
   /\ map (fun row => row !! "timestamp")
        (mergedData (DayjsUTC.dayjs 0) [Fixtures.oneSample "timestamp"]
           {| start := ""; end_ := "" |})
      = [Some (VNum 20.0)]
   /\ VNum 20.0 <> VStr "2024-01-01T10:00")
  /\ (map timeLabel (data (Fixtures.oneSample "timeLabel")) = ["01/01 10:00"]
      /\ map (fun row => row !! "timeLabel")
           (mergedData (DayjsUTC.dayjs 0) [Fixtures.oneSample "timeLabel"]
              {| start := ""; end_ := "" |})
         = [Some (VNum 20.0)]
      /\ VNum 20.0 <> VStr "01/01 10:00").
Proof.
  split; (split; [reflexivity | split; [reflexivity | discriminate]]).
Qed.

(** The scenario of the specification: files A and B, then the range
    11:00 to 11:00. *)
Example scenario_merge :
  map (fun row => (row !! "timeLabel", row !! "A.xlsx", row !! "B.xlsx"))
    (mergedData (DayjsUTC.dayjs 0) [Fixtures.fileA; Fixtures.fileB]
       {| start := ""; end_ := "" |})
  = [(Some (VStr "01/01 10:00"), Some (VNum 20.0), Some (VNum 22.0));
     (Some (VStr "01/01 11:00"), Some (VNum 21.0), None);
     (Some (VStr "01/01 12:00"), None, Some (VNum 23.0))].
Proof. reflexivity. Qed.

Example scenario_range :
  map (fun row => (row !! "timeLabel", row !! "A.xlsx", row !! "B.xlsx"))
    (mergedData (DayjsUTC.dayjs 0) [Fixtures.fileA; Fixtures.fileB]
       {| start := "2024-01-01T11:00"; end_ := "2024-01-01T11:00" |})
  = [(Some (VStr "01/01 11:00"), Some (VNum 21.0), None)].
Proof. reflexivity. Qed.

Lemma range_filter_inclusive_witness :
  rowInRange (DayjsUTC.dayjs 0)
    {| start := "2024-01-01T11:00"; end_ := "2024-01-01T11:00" |}
    {[ "timestamp" := VStr "2024-01-01T11:00" ]} = true
  /\ exists s' rows,
       s' = Fixtures.twin2
       /\ getRows
            (resampledBySeries (DayjsUTC.dayjs 0) [Fixtures.twin2]
               {| start := "2024-01-01T11:00"; end_ := "2024-01-01T11:00" |})
            "a.csv"
          = Some rows
       /\ ownRows
            (resampledBySeries (DayjsUTC.dayjs 0) [Fixtures.twin2]
               {| start := "2024-01-01T11:00"; end_ := "2024-01-01T11:00" |})
            !! "a.csv"
          = Some rows
       /\ rows = List.filter
                   (sampleKept (DayjsUTC.dayjs 0)
                      {| start := "2024-01-01T11:00"; end_ := "2024-01-01T11:00" |})
                   (resampled s')
       /\ In (Fixtures.mkSample "2024-01-01T11:00" 22.0) rows.
Proof.
  destruct (range_filter_inclusive (DayjsUTC.dayjs 0)
              {| start := "2024-01-01T11:00"; end_ := "2024-01-01T11:00" |})
    as (_ & _ & _ & Hmap & _ & Hrow & _).
  split.
  - apply (Hrow {[ "timestamp" := VStr "2024-01-01T11:00" ]} 1704106800000%Z).
    + reflexivity.
    + reflexivity.
    + right. exists 1704106800000%Z. split; [reflexivity | lia].
  - destruct (Hmap [Fixtures.twin2] Fixtures.twin2 (or_introl eq_refl))
      as (s' & _ & _ & Only & G & Own & M).
    assert (E : s' = Fixtures.twin2).
    { apply Only. intros x [<- | []] _. reflexivity. }
    exists s', (List.filter
                  (sampleKept (DayjsUTC.dayjs 0)
                     {| start := "2024-01-01T11:00"; end_ := "2024-01-01T11:00" |})
                  (resampled s')).
    split; [exact E |]. split; [exact G |].
    split; [apply Own; discriminate |]. split; [reflexivity |].
    apply M. rewrite E. split; [left; reflexivity |].
    split; right; exists 1704106800000%Z, 1704106800000%Z;
      (split; [reflexivity | split; [reflexivity | lia]]).
Defined.

(** ** Resampled view *)

(** C7, amended: the resampled mapping has an own entry under the name of
    every series, the name [__proto__] apart: for a series of that name
    the rows become the prototype of the mapping object and no entry is
    stored, though a read under the name still yields them.  What is read
    under the name of a series is the list of the resampled samples of the
    last series of that name, filtered by the range filter on each
    sample's own timestamp, so for a series that is the only one of its
    name it is that series' own filtered samples, whatever the other
    series are; a series with no sample in range keeps its entry, with an
    empty list.  Hiding a series changes neither this mapping nor the
    merged rows. *)
Theorem resampled_view (dayjs : jsval -> instant) (sr : list Series) (dr : DateRange) :
  (forall s, In s sr -> name s <> "__proto__" ->
             is_Some (ownRows (resampledBySeries dayjs sr dr) !! name s))
  /\ (forall s, In s sr ->
                is_Some (getRows (resampledBySeries dayjs sr dr) (name s)))
  /\ ownRows (resampledBySeries dayjs sr dr) !! "__proto__" = None
  /\ (forall n,
        n <> "__proto__" ->
        ownRows (resampledBySeries dayjs sr dr) !! n
        = (fun s => List.filter (sampleKept dayjs dr) (resampled s)) <$> lastNamed n sr)
  /\ (forall s,
        In s sr ->
        getRows (resampledBySeries dayjs sr dr) (name s)
        = (fun s => List.filter (sampleKept dayjs dr) (resampled s))
            <$> lastNamed (name s) sr)
  /\ protoRows (resampledBySeries dayjs sr dr)
     = (fun s => List.filter (sampleKept dayjs dr) (resampled s))
         <$> lastNamed "__proto__" sr
  /\ (forall r,
        sampleKept dayjs dr r = true
        <-> inRangeSpec dayjs dr (dayjs (VStr (timestamp r))))
  /\ (forall s,
        In s sr -> onlyOfItsName s sr ->
        getRows (resampledBySeries dayjs sr dr) (name s)
        = Some (List.filter (sampleKept dayjs dr) (resampled s))
        /\ (name s <> "__proto__" ->
            ownRows (resampledBySeries dayjs sr dr) !! name s
            = Some (List.filter (sampleKept dayjs dr) (resampled s))))
  /\ (forall s,
        In s sr -> onlyOfItsName s sr ->
        (forall r, In r (resampled s) ->
                   ~ inRangeSpec dayjs dr (dayjs (VStr (timestamp r)))) ->
        getRows (resampledBySeries dayjs sr dr) (name s) = Some []
        /\ (name s <> "__proto__" ->
            ownRows (resampledBySeries dayjs sr dr) !! name s = Some []))
  /\ (forall st n,
        resampledBySeries dayjs (series (onToggle n st)) (dateRange (onToggle n st))
        = resampledBySeries dayjs (series st) (dateRange st)
        /\ mergedData dayjs (series (onToggle n st)) (dateRange (onToggle n st))
           = mergedData dayjs (series st) (dateRange st)).
Proof.
  assert (ownEq : forall n, n <> "__proto__" ->
                  ownRows (resampledBySeries dayjs sr dr) !! n
                  = getRows (resampledBySeries dayjs sr dr) n).
  { intros n NP. unfold getRows. apply String.eqb_neq in NP. now rewrite NP. }
  assert (own : forall s, In s sr -> onlyOfItsName s sr ->
                getRows (resampledBySeries dayjs sr dr) (name s)
                = Some (List.filter (sampleKept dayjs dr) (resampled s))).
  { intros s I O. now rewrite resampledBySeries_lookup, (lastNamed_only s sr I O). }
  assert (some : forall s, In s sr ->
                 is_Some (getRows (resampledBySeries dayjs sr dr) (name s))).
  { intros s I. rewrite resampledBySeries_lookup.
    destruct (lastNamed_In s sr I) as [s' ->]. now eexists. }
  split; [| split; [| split; [| split; [| split; [| split; [| split;
    [| split; [| split]]]]]]]].
  - intros s I NP. rewrite (ownEq _ NP). now apply some.
  - exact some.
  - now rewrite resampledBySeries_own.
  - intros n NP. rewrite (ownEq _ NP). apply resampledBySeries_lookup.
  - intros s _. apply resampledBySeries_lookup.
  - apply resampledBySeries_proto.
  - apply sampleKept_spec.
  - intros s I O. split; [now apply own |].
    intros NP. rewrite (ownEq _ NP). now apply own.
  - intros s I O None_in.
    assert (E : List.filter (sampleKept dayjs dr) (resampled s) = []).
    { induction (resampled s) as [| r rs IH]; [reflexivity |].
      simpl. destruct (sampleKept dayjs dr r) eqn:K.
      - exfalso. apply (None_in r); [now left | now apply sampleKept_spec].
      - apply IH. intros r' I'. apply None_in. now right. }
    split.
    + rewrite (own s I O). now f_equal.
    + intros NP. rewrite (ownEq _ NP), (own s I O). now f_equal.
  - intros st n. split; reflexivity.
Qed.

Lemma resampled_view_witness :
  ownRows
    (resampledBySeries (DayjsUTC.dayjs 0) [Fixtures.twin1]
       {| start := "2024-01-02T00:00"; end_ := "" |}) !! "a.csv" = Some [].
Proof.
  destruct (resampled_view (DayjsUTC.dayjs 0) [Fixtures.twin1]
              {| start := "2024-01-02T00:00"; end_ := "" |})
    as (_ & _ & _ & _ & _ & _ & _ & _ & H & _).
  destruct (H Fixtures.twin1) as [_ Own].
  - left. reflexivity.
  - intros s' [<- | []] _. reflexivity.
  - intros r [<- | []] [[E | (x & s & Hx & Hs & Hle)] _].
    + discriminate.
    + vm_compute in Hx, Hs. injection Hx as <-. injection Hs as <-. lia.
  - apply Own. discriminate.
Defined.

(** C7 as the specification words it fails on two files of one name: the
    entry of the name holds the samples of the second file, not those of
    the first; and on a file named [__proto__]: no entry is stored for
    it. *)
Lemma resampled_view_counterexample :
  (In Fixtures.twin1 [Fixtures.twin1; Fixtures.twin2]
   /\ List.filter (sampleKept (DayjsUTC.dayjs 0) {| start := ""; end_ := "" |})
        (resampled Fixtures.twin1)
      = [Fixtures.mkSample "2024-01-01T10:00" 20.0]
   /\ ownRows
        (resampledBySeries (DayjsUTC.dayjs 0) [Fixtures.twin1; Fixtures.twin2]
           {| start := ""; end_ := "" |}) !! name Fixtures.twin1
      = Some [Fixtures.mkSample "2024-01-01T11:00" 22.0]
   /\ timestamp (Fixtures.mkSample "2024-01-01T11:00" 22.0)
      <> timestamp (Fixtures.mkSample "2024-01-01T10:00" 20.0))
  /\ (In (Fixtures.oneSample "__proto__") [Fixtures.oneSample "__proto__"]
      /\ ownRows
           (resampledBySeries (DayjsUTC.dayjs 0) [Fixtures.oneSample "__proto__"]
              {| start := ""; end_ := "" |})
         = ∅).
Proof.
  split.
  - split; [now left |]. split; [reflexivity |]. split; [reflexivity |].
    discriminate.
  - split; [now left | reflexivity].
Qed.

(** ** Upload orchestrator *)

Section Upload.

Variable dayjs : jsval -> instant.
Variable format : instant -> string -> string.
Variable Server : Type.
Variable post : Form -> Server -> (UploadError + Response) * Server.

Lemma uploadLoop_done (dr : DateRange) (pre : list File) :
  forall i acc (w w1 : World Server) results,
    uploadLoop dayjs format post i pre dr acc w = (inr results, w1) ->
    sent w1 = sent w ++ map (fun f => buildForm f dr) pre
    /\ length results = length acc + length pre.
Proof.
  induction pre as [| f pre IH]; intros i acc w w1 results H; simpl in H.
  - injection H as <- <-. simpl. rewrite app_nil_r. split; [reflexivity | lia].
  - unfold axios_post at 1 in H.
    destruct (post (buildForm f dr) (server w)) as [[e | res] sv]; [discriminate |].
    apply IH in H as [H1 H2]. simpl in H1. rewrite H1, H2, <- app_assoc, length_app.
    simpl. split; [reflexivity | lia].
Qed.

Lemma uploadLoop_fails_at (dr : DateRange) (file : File) (rest : list File)
    (err : UploadError) (sv2 : Server) (pre : list File) :
  forall i acc (w w1 : World Server) results,
    uploadLoop dayjs format post i pre dr acc w = (inr results, w1) ->
    post (buildForm file dr) (server w1) = (inl err, sv2) ->
    uploadLoop dayjs format post i (pre ++ file :: rest) dr acc w
    = (inl err, {| server := sv2; sent := sent w1 ++ [buildForm file dr] |}).
Proof.
  induction pre as [| f pre IH]; intros i acc w w1 results H P; simpl in H.
  - injection H as <- <-. simpl. unfold axios_post. now rewrite P.
  - simpl. unfold axios_post at 1. unfold axios_post at 1 in H.
    destruct (post (buildForm f dr) (server w)) as [[e | res] sv]; [discriminate |].
    now apply (IH _ _ _ _ _ H).
Qed.

(** C1, amended: when the request for file [k] of the batch fails (the
    files before it having succeeded), no further request is sent, the
    results gathered so far are dropped, and the series store is empty
    after the batch, whatever it held before: it was cleared when the
    batch started, so it equals the store before the batch only when that
    was empty.  One message is surfaced: the detail of the failure when it
    has one that is not empty, the fallback message otherwise. *)
Theorem upload_failure_clears_store (st : AppState) (w w1 : World Server)
    (pre rest : list File) (file : File) (results : list Series)
    (err : UploadError) (sv2 : Server) :
  files st = pre ++ file :: rest ->
  uploadLoop dayjs format post 0 pre (dateRange st) [] w = (inr results, w1) ->
  post (buildForm file (dateRange st)) (server w1) = (inl err, sv2) ->
  let st' := fst (onUpload dayjs format post st w) in
  let w' := snd (onUpload dayjs format post st w) in
  series st' = []
  /\ (series st = [] -> series st' = series st)
  /\ length results = length pre
  /\ sent w' = sent w ++ map (fun f => buildForm f (dateRange st)) (pre ++ [file])
  /\ server w' = sv2
  /\ uploadError st' = errorMessage err
  /\ (forall d, err = Failed (Some d) -> d <> "" -> uploadError st' = d)
  /\ (err = NoResponse \/ err = Failed None \/ err = Failed (Some "") ->
      uploadError st' = fallbackMessage)
  /\ loading st' = false
  /\ files st' = files st
  /\ hiddenKeys st' = hiddenKeys st
  /\ dateRange st' = dateRange st.
Proof.
  intros F Ok Ko st' w'.
  pose proof (uploadLoop_done _ _ _ _ _ _ _ Ok) as [Hsent Hlen].
  pose proof (uploadLoop_fails_at _ _ rest _ _ _ _ _ _ _ _ Ok Ko) as Fail.
  rewrite <- F in Fail.
  assert (E : onUpload dayjs format post st w
              = (setLoading false
                   (setUploadError (errorMessage err)
                      (setSeries [] (setUploadError "" (setLoading true st)))),
                 {| server := sv2;
                    sent := sent w1 ++ [buildForm file (dateRange st)] |})).
  { unfold onUpload. destruct (Nat.eqb_spec (length (files st)) 0) as [Z | _].
    - exfalso. rewrite F, length_app in Z. simpl in Z. lia.
    - now rewrite Fail. }
  subst st' w'. rewrite E. simpl.
  split; [reflexivity |]. split; [congruence |]. split; [exact Hlen |].
  split; [now rewrite Hsent, map_app, app_assoc |]. split; [reflexivity |].
  split; [reflexivity |]. split.
  { intros d -> Hd. simpl. apply truthy_true in Hd. now rewrite Hd. }
  split; [| repeat split].
  intros [-> | [-> | ->]]; reflexivity.
Qed.

End Upload.

Lemma upload_failure_clears_store_witness :
  let run :=
    onUpload (DayjsUTC.dayjs 0) DayjsUTC.format Fixtures.pickyPost
      (setSeries [Fixtures.fileA] (setFiles Fixtures.threeFiles initialState))
      {| server := 0; sent := [] |} in
  series (fst run) = []
  /\ uploadError (fst run) = "Formato de arquivo nao suportado"
  /\ map (fun f => file_name (form_file f)) (sent (snd run)) = ["a.csv"; "bad.csv"].
Proof.
  intros run.
  destruct (upload_failure_clears_store (DayjsUTC.dayjs 0) DayjsUTC.format nat
              Fixtures.pickyPost
              (setSeries [Fixtures.fileA] (setFiles Fixtures.threeFiles initialState))
              {| server := 0; sent := [] |}
              {| server := 1;
                 sent := [buildForm (Fixtures.file "a.csv") {| start := ""; end_ := "" |}] |}
              [Fixtures.file "a.csv"] [Fixtures.file "c.csv"] (Fixtures.file "bad.csv")
              [shapeResult (DayjsUTC.dayjs 0) DayjsUTC.format 0 (Fixtures.file "a.csv")
                 {| res_data := Fixtures.yearApart; res_stats := None;
                    res_resampled := None |}]
              (Failed (Some "Formato de arquivo nao suportado")) 2
              eq_refl eq_refl eq_refl)
    as (H1 & _ & _ & H4 & _ & H6 & _).
  split; [exact H1 |]. split; [exact H6 |].
  fold run in H4. rewrite H4. reflexivity.
Defined.

(** C1 as the specification words it fails when the store held a series before
    the batch: the store is empty afterwards.  And a failure whose detail
    is the empty string surfaces the fallback message. *)
Lemma upload_failure_counterexample :
  (let st := setSeries [Fixtures.fileA]
               (setFiles [Fixtures.file "bad.csv"] initialState) in
   let st' := fst (onUpload (DayjsUTC.dayjs 0) DayjsUTC.format Fixtures.pickyPost
                     st {| server := 0; sent := [] |}) in
   uploadError st' = "Formato de arquivo nao suportado"
   /\ series st = [Fixtures.fileA]
   /\ series st' = []
   /\ series st' <> series st)
  /\ (errorMessage (Failed (Some "")) = fallbackMessage /\ fallbackMessage <> "").
Proof.
  split; [| split; [reflexivity | discriminate]].
  split; [reflexivity |]. split; [reflexivity |]. split; [reflexivity |].
  discriminate.
Qed.

(** * Further properties of the component *)

(** ** The upload loop *)

Section UploadMore.

Variable dayjs : jsval -> instant.
Variable format : instant -> string -> string.
Variable Server : Type.
Variable post : Form -> Server -> (UploadError + Response) * Server.

Lemma uploadLoop_results (dr : DateRange) (fs : list File) :
  forall i acc (w w1 : World Server) results,
    uploadLoop dayjs format post i fs dr acc w = (inr results, w1) ->
    map name results = map name acc ++ map file_name fs
    /\ map id results = map id acc ++ seq i (length fs)
    /\ (Forall (fun s => color s = nth (id s mod length COLORS) COLORS "") acc ->
        Forall (fun s => color s = nth (id s mod length COLORS) COLORS "") results).
Proof.
  induction fs as [| f fs IH]; intros i acc w w1 results H; simpl in H.
  - injection H as <- <-. simpl. rewrite !app_nil_r. auto.
  - unfold axios_post at 1 in H.
    destruct (post (buildForm f dr) (server w)) as [[e | res] sv]; [discriminate |].
    apply IH in H as (Hn & Hi & Hc).
    rewrite Hn, Hi, !map_app, <- !app_assoc. simpl.
    split; [reflexivity |]. split; [reflexivity |].
    intros Hacc. apply Hc. apply Forall_app. split; [assumption |].
    constructor; [reflexivity | constructor].
Qed.

Lemma uploadLoop_prefix (dr : DateRange) (fs : list File) :
  forall i acc (w : World Server),
    exists k,
      k <= length fs
      /\ sent (snd (uploadLoop dayjs format post i fs dr acc w))
         = sent w ++ map (fun f => buildForm f dr) (firstn k fs)
      /\ (forall results,
            fst (uploadLoop dayjs format post i fs dr acc w) = inr results ->
            k = length fs).
Proof.
  induction fs as [| f fs IH]; intros i acc w.
  - exists 0. simpl. rewrite app_nil_r. auto.
  - cbn [uploadLoop]. unfold axios_post.
    destruct (post (buildForm f dr) (server w)) as [[e | res] sv].
    + exists 1. simpl. split; [lia |]. split; [reflexivity | discriminate].
    + destruct (IH (S i) (acc ++ [shapeResult dayjs format i f res])
                  {| server := sv; sent := sent w ++ [buildForm f dr] |})
        as (k & Hk & Hs & Hr).
      exists (S k). simpl. split; [lia |]. split.
      * rewrite Hs. simpl. now rewrite <- app_assoc.
      * intros results E. f_equal. now apply (Hr results).
Qed.

(** X1: when every request of a batch succeeds, the store is replaced by
    the results: one series per file, in selection order, named after the
    files, numbered from 0, each with the colour of its number; the error
    message is empty, and one request per file was sent, in order. *)
Theorem upload_success_replaces_store (st : AppState) (w w1 : World Server)
    (results : list Series) :
  files st <> [] ->
  uploadLoop dayjs format post 0 (files st) (dateRange st) [] w = (inr results, w1) ->
  let st' := fst (onUpload dayjs format post st w) in
  let w' := snd (onUpload dayjs format post st w) in
  series st' = results
  /\ length results = length (files st)
  /\ map name results = map file_name (files st)
  /\ map id results = seq 0 (length (files st))
  /\ Forall (fun s => color s = nth (id s mod length COLORS) COLORS "") results
  /\ uploadError st' = ""
  /\ loading st' = false
  /\ sent w' = sent w ++ map (fun f => buildForm f (dateRange st)) (files st).
Proof.
  intros NE Ok st' w'.
  pose proof (uploadLoop_results _ _ _ _ _ _ _ Ok) as (Hn & Hi & Hc).
  pose proof (uploadLoop_done _ _ _ _ _ _ _ _ _ _ _ Ok) as [Hsent Hlen].
  assert (E : onUpload dayjs format post st w
              = (setLoading false
                   (setSeries results
                      (setSeries [] (setUploadError "" (setLoading true st)))),
                 w1)).
  { unfold onUpload. destruct (Nat.eqb_spec (length (files st)) 0) as [Z | _].
    - destruct (files st); [congruence | discriminate].
    - now rewrite Ok. }
  subst st' w'. rewrite E. simpl. simpl in Hn, Hi, Hlen.
  repeat split; try assumption; try reflexivity. now apply Hc.
Qed.

(** X2: whatever the server answers, [onUpload] leaves the pending files,
    the hidden names and the date range as they were, and the requests it
    sends are those of a prefix of the pending files, in selection order,
    each with the bounds of the date range; with no pending file it sends
    nothing and changes nothing. *)
Theorem upload_frame (st : AppState) (w : World Server) :
  let st' := fst (onUpload dayjs format post st w) in
  let w' := snd (onUpload dayjs format post st w) in
  files st' = files st
  /\ hiddenKeys st' = hiddenKeys st
  /\ dateRange st' = dateRange st
  /\ (exists k, k <= length (files st)
                /\ sent w' = sent w
                   ++ map (fun f => buildForm f (dateRange st)) (firstn k (files st)))
  /\ (files st = [] -> st' = st /\ w' = w).
Proof.
  intros st' w'. subst st' w'. unfold onUpload.
  destruct (Nat.eqb_spec (length (files st)) 0) as [Z | NZ].
  - simpl. split; [reflexivity |]. split; [reflexivity |]. split; [reflexivity |].
    split; [| now split].
    exists 0. simpl. rewrite app_nil_r. split; [lia | reflexivity].
  - destruct (uploadLoop_prefix (dateRange st) (files st) 0 [] w) as (k & Hk & Hs & _).
    destruct (uploadLoop dayjs format post 0 (files st) (dateRange st) [] w)
      as [[err | results] w1]; simpl in *.
    + split; [reflexivity |]. split; [reflexivity |]. split; [reflexivity |].
      split; [now exists k |]. intros E. rewrite E in NZ. simpl in NZ. lia.
    + split; [reflexivity |]. split; [reflexivity |]. split; [reflexivity |].
      split; [now exists k |]. intros E. rewrite E in NZ. simpl in NZ. lia.
Qed.

End UploadMore.

Lemma upload_success_replaces_store_witness :
  let run :=
    onUpload (DayjsUTC.dayjs 0) DayjsUTC.format Fixtures.pickyPost
      (setSeries [Fixtures.fileA]
         (setFiles [Fixtures.file "a.csv"; Fixtures.file "c.csv"] initialState))
      {| server := 0; sent := [] |} in
  map name (series (fst run)) = ["a.csv"; "c.csv"]
  /\ map id (series (fst run)) = [0; 1]
  /\ uploadError (fst run) = "".
Proof.
  intros run.
  destruct (upload_success_replaces_store (DayjsUTC.dayjs 0) DayjsUTC.format nat
              Fixtures.pickyPost
              (setSeries [Fixtures.fileA]
                 (setFiles [Fixtures.file "a.csv"; Fixtures.file "c.csv"] initialState))
              {| server := 0; sent := [] |} _ _
              ltac:(discriminate) eq_refl)
    as (H1 & _ & H3 & H4 & _ & H6 & _).
  fold run in H1, H6. rewrite H1. split; [exact H3 |]. split; [exact H4 | exact H6].
Defined.

(** ** Invariants of the reachable states *)

Lemma NoDup_snoc {A} (l : list A) (x : A) :
  List.NoDup l -> ~ In x l -> List.NoDup (l ++ [x]).
Proof.
  induction l as [| a l IH]; simpl; intros ND NI.
  - constructor; [tauto | constructor].
  - apply List.NoDup_cons_iff in ND as [Ha ND]. constructor.
    + rewrite in_app_iff. simpl. intros [I | [E | []]]; [tauto |].
      apply NI. now left.
    + apply IH; [assumption | tauto].
Qed.

Lemma toggleLine_NoDup (n : string) (prev : list string) :
  List.NoDup prev -> List.NoDup (toggleLine n prev).
Proof.
  intros ND. unfold toggleLine. destruct (includes prev n) eqn:E.
  - now apply List.NoDup_filter.
  - apply NoDup_snoc; [assumption | now apply includes_false].
Qed.

Lemma colours_of_ids (l : list Series) :
  Forall (fun s => color s = nth (id s mod length COLORS) COLORS "") l ->
  map color l = map (fun j => nth (j mod length COLORS) COLORS "") (map id l).
Proof.
  induction 1 as [| s l Hs _ IH]; simpl; [reflexivity |]. now rewrite Hs, IH.
Qed.

Lemma first_colours_NoDup (n : nat) :
  n <= 5 ->
  List.NoDup (map (fun j => nth (j mod length COLORS) COLORS "") (seq 0 n)).
Proof.
  intros Hn.
  do 6 (destruct n as [| n];
        [simpl; repeat (constructor; [simpl; intuition discriminate |]); constructor |]).
  lia.
Qed.

Section Invariants.

Variable dayjs : jsval -> instant.
Variable format : instant -> string -> string.
Variable Server : Type.
Variable post : Form -> Server -> (UploadError + Response) * Server.

(** What every handler keeps. *)
Let sound (st : AppState) : Prop :=
  length (files st) <= 5
  /\ length (series st) <= 5
  /\ map id (series st) = seq 0 (length (series st))
  /\ Forall (fun s => color s = nth (id s mod length COLORS) COLORS "") (series st)
  /\ (uploadError st <> "" -> series st = [])
  /\ List.NoDup (hiddenKeys st).

Lemma onUpload_sound (st : AppState) (w : World Server) :
  sound st -> sound (fst (onUpload dayjs format post st w)).
Proof.
  intros (Hf & Hs & Hi & Hc & He & Hh). unfold onUpload.
  destruct (Nat.eqb (length (files st)) 0); [repeat split; assumption |].
  destruct (uploadLoop dayjs format post 0 (files st) (dateRange st) [] w)
    as [[err | results] w1] eqn:L; simpl.
  - repeat split; simpl; try assumption; try constructor. lia.
  - pose proof (uploadLoop_results _ _ _ _ _ _ _ _ _ _ _ L) as (_ & Hi' & Hc').
    pose proof (uploadLoop_done _ _ _ _ _ _ _ _ _ _ _ L) as [_ Hlen].
    simpl in Hi', Hlen.
    repeat split; simpl; try assumption.
    + lia.
    + now rewrite Hlen.
    + apply Hc'. constructor.
    + congruence.
Qed.

Lemma reachable_sound (sv0 : Server) (c : AppState * World Server) :
  reachable dayjs format post sv0 c -> sound (fst c).
Proof.
  induction 1 as [| ev [st w] R IH].
  - repeat split; simpl; try constructor; try lia; try congruence.
  - cbn [fst] in IH. destruct ev; cbn [handle fst].
    + destruct IH as (Hf & Hs & Hi & Hc & He & Hh).
      repeat split; try assumption. rewrite onFile_files, length_take. lia.
    + now apply onUpload_sound.
    + repeat split; simpl; try constructor; try lia; try congruence.
    + destruct IH as (Hf & Hs & Hi & Hc & He & Hh).
      repeat split; try assumption. simpl. now apply toggleLine_NoDup.
    + exact IH.
    + exact IH.
Qed.

(** X3: in every state the component reaches, the store holds at most
    five series, numbered 0, 1, 2, ... in stored order, and no two of them
    have the same colour. *)
Theorem store_shape (sv0 : Server) (c : AppState * World Server) :
  reachable dayjs format post sv0 c ->
  length (series (fst c)) <= 5
  /\ map id (series (fst c)) = seq 0 (length (series (fst c)))
  /\ List.NoDup (map color (series (fst c))).
Proof.
  intros R. destruct (reachable_sound sv0 c R) as (_ & Hs & Hi & Hc & _).
  split; [assumption |]. split; [assumption |].
  rewrite (colours_of_ids _ Hc), Hi. now apply first_colours_NoDup.
Qed.

(** X4: in every state the component reaches, an upload error is shown
    only while the store is empty: a series and an error message are never
    held together. *)
Theorem error_only_with_empty_store (sv0 : Server) (c : AppState * World Server) :
  reachable dayjs format post sv0 c ->
  (uploadError (fst c) <> "" -> series (fst c) = [])
  /\ (series (fst c) <> [] -> uploadError (fst c) = "").
Proof.
  intros R. destruct (reachable_sound sv0 c R) as (_ & _ & _ & _ & He & _).
  split; [assumption |]. intros NE.
  destruct (string_dec (uploadError (fst c)) "") as [E | N]; [assumption |].
  now apply He in N.
Qed.

(** X5: in every state the component reaches, the hidden names hold no
    name twice. *)
Theorem hidden_names_distinct (sv0 : Server) (c : AppState * World Server) :
  reachable dayjs format post sv0 c -> List.NoDup (hiddenKeys (fst c)).
Proof.
  intros R. now destruct (reachable_sound sv0 c R) as (_ & _ & _ & _ & _ & Hh).
Qed.

End Invariants.

Lemma store_shape_witness :
  let c := handle (DayjsUTC.dayjs 0) DayjsUTC.format Fixtures.pickyPost EvUpload
             (handle (DayjsUTC.dayjs 0) DayjsUTC.format Fixtures.pickyPost
                (EvFile (Some [Fixtures.file "a.csv"; Fixtures.file "c.csv"]))
                (initialState, {| server := 0; sent := [] |})) in
  length (series (fst c)) <= 5
  /\ map id (series (fst c)) = seq 0 (length (series (fst c)))
  /\ List.NoDup (map color (series (fst c))).
Proof.
  intros c.
  apply (store_shape (DayjsUTC.dayjs 0) DayjsUTC.format nat Fixtures.pickyPost 0).
  do 2 apply reach_step. apply reach_init.
Defined.

Lemma error_only_with_empty_store_witness :
  let c := handle (DayjsUTC.dayjs 0) DayjsUTC.format Fixtures.pickyPost EvUpload
             (handle (DayjsUTC.dayjs 0) DayjsUTC.format Fixtures.pickyPost
                (EvFile (Some Fixtures.threeFiles))
                (initialState, {| server := 0; sent := [] |})) in
  (uploadError (fst c) <> "" -> series (fst c) = [])
  /\ (series (fst c) <> [] -> uploadError (fst c) = "").
Proof.
  intros c.
  apply (error_only_with_empty_store (DayjsUTC.dayjs 0) DayjsUTC.format nat
           Fixtures.pickyPost 0).
  do 2 apply reach_step. apply reach_init.
Defined.

Lemma hidden_names_distinct_witness :
  List.NoDup
    (hiddenKeys
       (fst (handle (DayjsUTC.dayjs 0) DayjsUTC.format Fixtures.pickyPost
               (EvToggle "b.csv")
               (handle (DayjsUTC.dayjs 0) DayjsUTC.format Fixtures.pickyPost
                  (EvToggle "a.csv")
                  (initialState, {| server := 0; sent := [] |}))))).
Proof.
  apply (hidden_names_distinct (DayjsUTC.dayjs 0) DayjsUTC.format nat
           Fixtures.pickyPost 0).
  do 2 apply reach_step. apply reach_init.
Defined.

(** ** More on the merge *)

Lemma lastWrite_Some (k L : string) (ws : list (Series * sample)) (d : sample) :
  lastWrite k L ws = Some d ->
  exists s, In (s, d) ws /\ name s = k /\ timeLabel d = L.
Proof.
  unfold lastWrite. intros H.
  destruct (last _) as [[s d'] |] eqn:E; [| discriminate].
  injection H as ->. apply last_Some in E as [l' E].
  assert (I : In (s, d) (List.filter
                           (fun w => String.eqb (name (fst w)) k
                                     && String.eqb (timeLabel (snd w)) L) ws)).
  { rewrite E. apply in_or_app. right. now left. }
  apply filter_In in I as [I N]. apply andb_true_iff in N as [N1 N2].
  apply String.eqb_eq in N1, N2. now exists s.
Qed.

Lemma lastWrite_None (k L : string) (ws : list (Series * sample)) :
  lastWrite k L ws = None ->
  forall s d, In (s, d) ws -> name s = k -> timeLabel d <> L.
Proof.
  unfold lastWrite. intros H s d I N T.
  destruct (last _) as [a |] eqn:E; [discriminate |].
  apply last_None in E.
  assert (I' : In (s, d) (List.filter
                            (fun w => String.eqb (name (fst w)) k
                                      && String.eqb (timeLabel (snd w)) L) ws)).
  { apply filter_In. split; [assumption |]. simpl.
    apply andb_true_iff. split; now apply String.eqb_eq. }
  rewrite E in I'. destruct I'.
Qed.

(** X6: in the row stored under a label, a key other than [timeLabel] and
    [timestamp] is absent exactly when no series of that name has a sample
    with that label (or the key is [__proto__]); a key that is present
    holds the temperature of such a sample, never a filler value. *)
Theorem row_gaps (sr : list Series) (L : string) (row : Row) (k : string) :
  In (L, row) (mergeAll sr) ->
  k <> "timeLabel" -> k <> "timestamp" ->
  (row !! k = None
   <-> k = "__proto__"
       \/ forall s d, In s sr -> In d (data s) -> name s = k -> timeLabel d <> L)
  /\ (forall v, row !! k = Some v ->
        exists s d, In s sr /\ In d (data s) /\ name s = k
                    /\ timeLabel d = L /\ v = VNum (temperature d)).
Proof.
  intros E N1 N2. rewrite (mergeAll_entry _ _ _ E). unfold expectedProp.
  apply String.eqb_neq in N1, N2. rewrite N1, N2.
  destruct (String.eqb_spec k "__proto__") as [-> | NP].
  - split; [tauto | discriminate].
  - destruct (lastWrite k L (writes sr)) as [d |] eqn:W.
    + apply lastWrite_Some in W as (s & I & Hn & Hl).
      apply writes_In in I as [Is Id]. split.
      * split; [discriminate |]. intros [? | H]; [contradiction |].
        exfalso. now apply (H s d).
      * intros v [= <-]. now exists s, d.
    + split; [| discriminate]. split; [| reflexivity]. intros _. right.
      intros s d Is Id. apply (lastWrite_None _ _ _ W). now apply writes_In.
Qed.

Lemma row_gaps_witness :
  snd (nth 1 (mergeAll [Fixtures.fileA; Fixtures.fileB]) ("", ∅)) !! "B.xlsx" = None.
Proof.
  pose (e := nth 1 (mergeAll [Fixtures.fileA; Fixtures.fileB]) ("", ∅)).
  assert (I : In e (mergeAll [Fixtures.fileA; Fixtures.fileB])).
  { apply nth_In. vm_compute. lia. }
  assert (L : fst e = "01/01 11:00") by (vm_compute; reflexivity).
  rewrite (surjective_pairing e), L in I.
  apply (proj1 (row_gaps [Fixtures.fileA; Fixtures.fileB] "01/01 11:00" (snd e)
                  "B.xlsx" I ltac:(discriminate) ltac:(discriminate))).
  right. intros s d [<- | [<- | []]] Id; [discriminate |].
  intros _ T. destruct Id as [<- | [<- | []]]; vm_compute in T; discriminate.
Defined.

Lemma map_modify_fresh (k : string) (f : Row -> Row) (o : Row) (all : JsMap) :
  map_has all k = false ->
  map_modify k f (all ++ [(k, o)]) = all ++ [(k, f o)].
Proof.
  induction all as [| [k' o'] all IH]; simpl.
  - now rewrite String.eqb_refl.
  - destruct (String.eqb k' k); [discriminate |]. intros H. now rewrite IH.
Qed.

Lemma addSample_fresh (s : Series) (all : JsMap) (d : sample) :
  map_has all (timeLabel d) = false ->
  addSample s all d
  = all ++ [(timeLabel d, setProp (name s) (VNum (temperature d)) (newRow d))].
Proof.
  intros H. unfold addSample. rewrite H. simpl.
  rewrite (map_set_absent _ _ _ H). now apply map_modify_fresh.
Qed.

Lemma addSeries_fresh (s : Series) (ds : list sample) :
  forall all,
    List.NoDup (map timeLabel ds) ->
    (forall d, In d ds -> map_has all (timeLabel d) = false) ->
    fold_left (addSample s) ds all
    = all ++ map (fun d => (timeLabel d,
                            setProp (name s) (VNum (temperature d)) (newRow d))) ds.
Proof.
  induction ds as [| d ds IH]; intros all ND Fresh; simpl.
  - now rewrite app_nil_r.
  - apply List.NoDup_cons_iff in ND as [Hd ND].
    rewrite addSample_fresh by (apply Fresh; now left).
    rewrite IH; [now rewrite <- app_assoc | assumption |].
    intros d' I'. rewrite map_has_includes, map_app. simpl map.
    rewrite includes_app, <- map_has_includes, (Fresh d') by now right. simpl.
    apply String.eqb_neq. intros E. apply Hd. rewrite <- E. now apply in_map.
Qed.

(** X7: a single series whose samples have pairwise distinct labels, and
    whose name is none of [timeLabel], [timestamp] and [__proto__], merges
    into one row per sample, in sample order, each holding the label, the
    timestamp and the temperature of its sample. *)
Theorem single_series_rows (dayjs : jsval -> instant) (s : Series) :
  List.NoDup (map timeLabel (data s)) ->
  name s <> "timeLabel" -> name s <> "timestamp" -> name s <> "__proto__" ->
  map (fun row => (row !! "timeLabel", row !! "timestamp", row !! name s))
    (mergedData dayjs [s] {| start := ""; end_ := "" |})
  = map (fun d => (Some (VStr (timeLabel d)), Some (VStr (timestamp d)),
                   Some (VNum (temperature d))))
      (data s).
Proof.
  intros ND N1 N2 N3.
  change (mergedData dayjs [s] {| start := ""; end_ := "" |})
    with (map snd (fold_left (addSample s) (data s) [])).
  rewrite addSeries_fresh by (assumption || reflexivity). simpl.
  rewrite !map_map. apply map_ext. intros d. simpl.
  rewrite !setProp_lookup, !newRow_lookup.
  apply String.eqb_neq in N3. apply not_eq_sym, String.eqb_neq in N1, N2.
  rewrite N1, N2, N3, !String.eqb_refl. reflexivity.
Qed.

Lemma single_series_rows_witness :
  map (fun row => (row !! "timeLabel", row !! "timestamp", row !! "A.xlsx"))
    (mergedData (DayjsUTC.dayjs 0) [Fixtures.fileA] {| start := ""; end_ := "" |})
  = [(Some (VStr "01/01 10:00"), Some (VStr "2024-01-01T10:00"), Some (VNum 20.0));
     (Some (VStr "01/01 11:00"), Some (VStr "2024-01-01T11:00"), Some (VNum 21.0))].
Proof.
  assert (ND : List.NoDup (map timeLabel (data Fixtures.fileA))).
  { vm_compute. repeat (constructor; [simpl; intuition discriminate |]). constructor. }
  pose proof (single_series_rows (DayjsUTC.dayjs 0) Fixtures.fileA ND
                ltac:(discriminate) ltac:(discriminate) ltac:(discriminate)) as H.
  vm_compute in H. vm_compute. exact H.
Defined.

Lemma addSeries_applyWrites (series : list Series) (all : JsMap) :
  fold_left addSeries series all = applyWrites (writes series) all.
Proof.
  unfold applyWrites. revert all.
  induction series as [| s series IH]; intros all; [reflexivity |].
  simpl. rewrite fold_left_app, IH. f_equal.
  unfold addSeries. generalize all. clear.
  induction (data s) as [| d ds IH]; intros all; [reflexivity |].
  simpl. apply IH.
Qed.

Lemma mergeAll_app (sr1 sr2 : list Series) :
  mergeAll (sr1 ++ sr2) = applyWrites (writes sr2) (mergeAll sr1).
Proof.
  unfold mergeAll. now rewrite fold_left_app, addSeries_applyWrites.
Qed.

Lemma applyWrites_get_other (ws : list (Series * sample)) (L : string) :
  ~ In L (labels ws) ->
  forall all, map_get (applyWrites ws all) L = map_get all L.
Proof.
  induction ws as [| [s d] ws IH]; intros N all; [reflexivity |].
  change (applyWrites ((s, d) :: ws) all) with (applyWrites ws (addSample s all d)).
  rewrite IH by (intros I; apply N; now right).
  rewrite addSample_get.
  destruct (String.eqb_spec L (timeLabel d)) as [-> | Hne]; [| reflexivity].
  exfalso. apply N. now left.
Qed.

(** X8: files added at the end of a batch leave the rows of the earlier
    files where they were and append one row per label not met before, in
    the order these labels are first met; a row whose label does not occur
    in the added files is unchanged. *)
Theorem merge_append (sr1 sr2 : list Series) :
  map fst (mergeAll (sr1 ++ sr2))
  = map fst (mergeAll sr1)
    ++ List.filter (fun L => negb (includes (labels (writes sr1)) L))
         (firstSeen (labels (writes sr2)))
  /\ (forall L, ~ In L (labels (writes sr2)) ->
                map_get (mergeAll (sr1 ++ sr2)) L = map_get (mergeAll sr1) L).
Proof.
  rewrite mergeAll_app. split.
  - rewrite applyWrites_keys. f_equal. apply filter_ext. intros L. f_equal.
    apply eq_true_iff_eq. rewrite !includes_In, mergeAll_keys. apply In_firstSeen.
  - intros L N. now apply applyWrites_get_other.
Qed.

Lemma length_firstSeen (l : list string) : length (firstSeen l) <= length l.
Proof.
  induction l as [| x l IH]; simpl; [lia |].
  pose proof (filter_length_le (fun y => negb (String.eqb y x)) (firstSeen l)). lia.
Qed.

Lemma length_writes (sr : list Series) :
  length (writes sr) = list_sum (map (fun s => length (data s)) sr).
Proof.
  induction sr as [| s sr IH]; simpl; [reflexivity |].
  change (writes (s :: sr)) with (map (pair s) (data s) ++ writes sr).
  now rewrite length_app, length_map, IH.
Qed.

(** X9: the chart has one row per distinct label when no bound is set,
    never more rows with a date range, and never more rows than the series
    have samples in all; an empty store gives no row. *)
Theorem merged_row_count (dayjs : jsval -> instant) (sr : list Series)
    (dr : DateRange) :
  length (mergedData dayjs sr {| start := ""; end_ := "" |})
  = length (firstSeen (labels (writes sr)))
  /\ length (mergedData dayjs sr dr)
     <= length (mergedData dayjs sr {| start := ""; end_ := "" |})
  /\ length (mergedData dayjs sr dr)
     <= list_sum (map (fun s => length (data s)) sr)
  /\ mergedData dayjs [] dr = [].
Proof.
  assert (E : length (map_values (mergeAll sr))
              = length (firstSeen (labels (writes sr)))).
  { unfold map_values. now rewrite length_map, <- mergeAll_keys, length_map. }
  assert (F : length (mergedData dayjs sr dr) <= length (map_values (mergeAll sr))).
  { unfold mergedData. rewrite filterStage_filter. apply filter_length_le. }
  split; [exact E |]. split; [exact F |]. split.
  - rewrite <- length_writes. etransitivity; [exact F |]. rewrite E.
    etransitivity; [apply length_firstSeen |]. unfold labels. now rewrite length_map.
  - unfold mergedData, filterStage. simpl.
    now destruct (truthy (start dr) || truthy (end_ dr)).
Qed.

(** ** More on the range filter *)

Lemma sublist_filter_impl {A} (p q : A -> bool) (l : list A) :
  (forall x, p x = true -> q x = true) ->
  sublist (List.filter p l) (List.filter q l).
Proof.
  intros H. induction l as [| a l IH]; simpl; [constructor |].
  destruct (p a) eqn:P.
  - rewrite (H a P). now constructor.
  - destruct (q a); [now constructor | assumption].
Qed.

Lemma filter_none {A} (p : A -> bool) (l : list A) :
  (forall x, In x l -> p x = false) -> List.filter p l = [].
Proof.
  induction l as [| a l IH]; simpl; intros H; [reflexivity |].
  rewrite (H a) by now left. apply IH. intros x I. apply H. now right.
Qed.

Section RangeMore.

Variable dayjs : jsval -> instant.

Lemma keep_spec (dr : DateRange) (row : Row) :
  negb (truthy (start dr) || truthy (end_ dr)) || rowInRange dayjs dr row = true
  <-> inRangeSpec dayjs dr (dayjs (getProp row "timestamp")).
Proof.
  rewrite orb_true_iff, rowInRange_spec. split; [| tauto].
  intros [H | H]; [| assumption].
  apply negb_true_iff, orb_false_elim in H as [H1 H2].
  apply truthy_false in H1, H2. unfold inRangeSpec. tauto.
Qed.

(** X10: narrowing the date range never adds a row: when the bounds of
    [dr'] lie within those of [dr], the rows shown for [dr'] are rows shown
    for [dr], in the same order. *)
Theorem narrower_range_fewer_rows (dr dr' : DateRange) (sr : list Series) :
  (start dr = ""
   \/ exists s s', dayjs (VStr (start dr)) = Some s /\ start dr' <> ""
                   /\ dayjs (VStr (start dr')) = Some s' /\ (s <= s')%Z) ->
  (end_ dr = ""
   \/ exists e e', dayjs (VStr (end_ dr)) = Some e /\ end_ dr' <> ""
                   /\ dayjs (VStr (end_ dr')) = Some e' /\ (e' <= e)%Z) ->
  sublist (mergedData dayjs sr dr') (mergedData dayjs sr dr).
Proof.
  intros Hs He. unfold mergedData. rewrite !filterStage_filter.
  apply sublist_filter_impl. intros row. rewrite !keep_spec.
  unfold inRangeSpec. intros [S E]. split.
  - destruct Hs as [? | (s & s' & Ds & NE & Ds' & Le)]; [now left |]. right.
    destruct S as [? | (x & s'' & Tx & Ds'' & Le')]; [contradiction |].
    exists x, s. repeat split; try assumption.
    rewrite Ds' in Ds''. injection Ds'' as <-. lia.
  - destruct He as [? | (e & e' & De & NE & De' & Le)]; [now left |]. right.
    destruct E as [? | (x & e'' & Tx & De'' & Le')]; [contradiction |].
    exists x, e. repeat split; try assumption.
    rewrite De' in De''. injection De'' as <-. lia.
Qed.

(** X11: a range whose start lies after its end shows nothing and raises
    no error: the chart has no row and every table is empty, whether its
    rows are stored as an entry of the resampled mapping or, for a series
    named [__proto__], as its prototype. *)
Theorem inverted_range_shows_nothing (dr : DateRange) (sr : list Series) (s e : Z) :
  start dr <> "" -> end_ dr <> "" ->
  dayjs (VStr (start dr)) = Some s -> dayjs (VStr (end_ dr)) = Some e ->
  (e < s)%Z ->
  mergedData dayjs sr dr = []
  /\ (forall n rows,
        ownRows (resampledBySeries dayjs sr dr) !! n = Some rows -> rows = [])
  /\ (forall rows,
        protoRows (resampledBySeries dayjs sr dr) = Some rows -> rows = [])
  /\ (forall x,
        In x sr ->
        getRows (resampledBySeries dayjs sr dr) (name x) = Some []).
Proof.
  intros NS NE Ds De Lt.
  assert (No : forall t, ~ inRangeSpec dayjs dr t).
  { intros t [[? | (x & s' & Tx & Ds' & Ls)] [? | (x' & e' & Tx' & De' & Le)]];
      try contradiction.
    rewrite Ds in Ds'. rewrite De in De'. injection Ds' as <-. injection De' as <-.
    rewrite Tx in Tx'. injection Tx' as <-. lia. }
  assert (Empty : forall x, List.filter (sampleKept dayjs dr) (resampled x) = []).
  { intros x. apply filter_none. intros r _. apply not_true_is_false.
    rewrite sampleKept_spec. apply No. }
  assert (Read : forall n rows,
                 getRows (resampledBySeries dayjs sr dr) n = Some rows -> rows = []).
  { intros n rows E. rewrite resampledBySeries_lookup in E.
    destruct (lastNamed n sr); [| discriminate]. injection E as <-. apply Empty. }
  split; [| split; [| split]].
  - unfold mergedData. rewrite filterStage_filter. apply filter_none.
    intros row _. apply not_true_is_false. rewrite keep_spec. apply No.
  - intros n rows E. rewrite resampledBySeries_own in E.
    destruct (String.eqb n "__proto__"); [discriminate |].
    destruct (lastNamed n sr); [| discriminate]. injection E as <-. apply Empty.
  - intros rows E. now apply (Read "__proto__").
  - intros x I. rewrite resampledBySeries_lookup.
    destruct (lastNamed_In x sr I) as [x' ->]. simpl. now rewrite Empty.
Qed.

(** X12: dates that cannot be parsed are not errors.  A row whose
    timestamp is invalid is dropped as soon as one bound is set and kept
    when none is; a bound that is set but invalid drops every row. *)
Theorem unparsable_dates (dr : DateRange) (arr : list Row) :
  (forall row,
     dayjs (getProp row "timestamp") = None ->
     (start dr <> "" \/ end_ dr <> "") ->
     ~ In row (filterStage dayjs dr arr))
  /\ (forall row,
        dayjs (getProp row "timestamp") = None ->
        start dr = "" -> end_ dr = "" ->
        (In row (filterStage dayjs dr arr) <-> In row arr))
  /\ ((start dr <> "" /\ dayjs (VStr (start dr)) = None)
      \/ (end_ dr <> "" /\ dayjs (VStr (end_ dr)) = None) ->
      filterStage dayjs dr arr = []).
Proof.
  split; [| split].
  - intros row T B I. apply filterStage_In in I as [_ [S E]]. rewrite T in S, E.
    destruct B as [B | B].
    + destruct S as [? | (x & ? & [=] & _)]. contradiction.
    + destruct E as [? | (x & ? & [=] & _)]. contradiction.
  - intros row _ S E. rewrite filterStage_In. unfold inRangeSpec. tauto.
  - intros B. rewrite filterStage_filter. apply filter_none.
    intros row _. apply not_true_is_false. rewrite keep_spec.
    intros [S E]. destruct B as [[NS Ds] | [NE De]].
    + destruct S as [? | (x & s & _ & Ds' & _)]; [contradiction | congruence].
    + destruct E as [? | (x & e & _ & De' & _)]; [contradiction | congruence].
Qed.

(** X13: the resampled mapping has an own entry under the name of every
    series other than [__proto__] and under no other key; its prototype is
    replaced exactly when a series is named [__proto__]; and the samples
    of an entry, of the prototype, or of what is read under the name of a
    series, are samples of a series of that name in their stored order:
    the view invents and reorders nothing. *)
Theorem resampled_entries (sr : list Series) (dr : DateRange) (n : string) :
  (ownRows (resampledBySeries dayjs sr dr) !! n = None
   <-> n = "__proto__" \/ ~ In n (map name sr))
  /\ (forall rows,
        ownRows (resampledBySeries dayjs sr dr) !! n = Some rows ->
        n <> "__proto__"
        /\ exists s, In s sr /\ name s = n /\ sublist rows (resampled s))
  /\ (protoRows (resampledBySeries dayjs sr dr) = None
      <-> ~ In "__proto__" (map name sr))
  /\ (forall rows,
        protoRows (resampledBySeries dayjs sr dr) = Some rows ->
        exists s, In s sr /\ name s = "__proto__" /\ sublist rows (resampled s))
  /\ (In n (map name sr) ->
      exists rows s,
        getRows (resampledBySeries dayjs sr dr) n = Some rows
        /\ In s sr /\ name s = n /\ sublist rows (resampled s)).
Proof.
  assert (none : forall k, lastNamed k sr = None <-> ~ In k (map name sr)).
  { intros k. destruct (lastNamed k sr) as [s |] eqn:L.
    - apply lastNamed_Some in L as [I N]. split; [discriminate |].
      intros H. exfalso. apply H. apply in_map_iff. now exists s.
    - split; [| reflexivity]. intros _ I. apply in_map_iff in I as (s & N & I).
      subst k. destruct (lastNamed_In s sr I) as [s' E]. congruence. }
  assert (some : forall k rows,
                 (fun s => List.filter (sampleKept dayjs dr) (resampled s))
                   <$> lastNamed k sr = Some rows ->
                 exists s, In s sr /\ name s = k /\ sublist rows (resampled s)).
  { intros k rows E. destruct (lastNamed k sr) as [s |] eqn:L; [| discriminate].
    injection E as <-. apply lastNamed_Some in L as [I N].
    exists s. split; [assumption |]. split; [assumption |].
    apply sublist_filter_bool. }
  split; [| split; [| split; [| split]]].
  - rewrite resampledBySeries_own.
    destruct (String.eqb_spec n "__proto__") as [-> | NP].
    + split; [now left | reflexivity].
    + rewrite <- none. destruct (lastNamed n sr); simpl.
      * split; [discriminate | intros [? | ?]; [contradiction | discriminate]].
      * split; [now right | reflexivity].
  - intros rows E. rewrite resampledBySeries_own in E.
    destruct (String.eqb_spec n "__proto__") as [-> | NP]; [discriminate |].
    split; [assumption | now apply some].
  - rewrite resampledBySeries_proto, <- none.
    destruct (lastNamed "__proto__" sr); simpl; split; congruence.
  - intros rows E. rewrite resampledBySeries_proto in E. now apply some.
  - intros I. rewrite resampledBySeries_lookup.
    destruct (lastNamed n sr) as [s |] eqn:L.
    + exists (List.filter (sampleKept dayjs dr) (resampled s)), s.
      apply lastNamed_Some in L as [I' N].
      split; [reflexivity |]. split; [assumption |]. split; [assumption |].
      apply sublist_filter_bool.
    + exfalso. now apply (proj1 (none n)).
Qed.

End RangeMore.

Lemma narrower_range_fewer_rows_witness :
  sublist
    (mergedData (DayjsUTC.dayjs 0) [Fixtures.fileA; Fixtures.fileB]
       {| start := "2024-01-01T11:00"; end_ := "2024-01-01T11:00" |})
    (mergedData (DayjsUTC.dayjs 0) [Fixtures.fileA; Fixtures.fileB]
       {| start := "2024-01-01T10:00"; end_ := "" |}).
Proof.
  apply (narrower_range_fewer_rows (DayjsUTC.dayjs 0)
           {| start := "2024-01-01T10:00"; end_ := "" |}
           {| start := "2024-01-01T11:00"; end_ := "2024-01-01T11:00" |}).
  - right. exists 1704103200000%Z, 1704106800000%Z.
    split; [reflexivity |]. split; [discriminate |]. split; [reflexivity | lia].
  - left. reflexivity.
Defined.

Lemma inverted_range_shows_nothing_witness :
  mergedData (DayjsUTC.dayjs 0) [Fixtures.fileA; Fixtures.fileB]
    {| start := "2024-01-01T12:00"; end_ := "2024-01-01T10:00" |} = [].
Proof.
  apply (proj1 (inverted_range_shows_nothing (DayjsUTC.dayjs 0)
                  {| start := "2024-01-01T12:00"; end_ := "2024-01-01T10:00" |}
                  [Fixtures.fileA; Fixtures.fileB]
                  1704110400000%Z 1704103200000%Z
                  ltac:(discriminate) ltac:(discriminate)
                  ltac:(reflexivity) ltac:(reflexivity) ltac:(reflexivity))).
Defined.

Lemma unparsable_dates_witness :
  filterStage (DayjsUTC.dayjs 0) {| start := "yesterday"; end_ := "" |}
    (map_values (mergeAll [Fixtures.fileA; Fixtures.fileB])) = [].
Proof.
  apply (proj2 (proj2 (unparsable_dates (DayjsUTC.dayjs 0)
                         {| start := "yesterday"; end_ := "" |}
                         (map_values (mergeAll [Fixtures.fileA; Fixtures.fileB]))))).
  left. split; [discriminate | reflexivity].
Defined.

Lemma resampled_entries_witness :
  exists s, In s [Fixtures.twin1; Fixtures.twin2] /\ name s = "a.csv"
            /\ sublist [Fixtures.mkSample "2024-01-01T11:00" 22.0] (resampled s).
Proof.
  apply (proj1 (proj2 (resampled_entries (DayjsUTC.dayjs 0)
                         [Fixtures.twin1; Fixtures.twin2]
                         {| start := ""; end_ := "" |} "a.csv"))).
  reflexivity.
Defined.

(** ** Login *)

(** X14: submitting the login form authenticates exactly on the fixed
    credentials, compared as they are typed: a match sets the flag, stores
    [auth = 1] and clears the error; anything else leaves the flag and the
    storage untouched and shows the error message. *)
Theorem login_decision (a : AuthState) (ls : Storage) :
  let a' := fst (handleLogin a ls) in
  let ls' := snd (handleLogin a ls) in
  (username a = "hospitech" /\ password a = "1234" ->
   isAuthenticated a' = true /\ loginError a' = ""
   /\ ls' !! "auth" = Some "1"
   /\ forall k, k <> "auth" -> ls' !! k = ls !! k)
  /\ (~ (username a = "hospitech" /\ password a = "1234") ->
      isAuthenticated a' = isAuthenticated a
      /\ loginError a' = loginErrorMessage
      /\ ls' = ls)
  /\ (isAuthenticated a = false ->
      (isAuthenticated a' = true
       <-> username a = "hospitech" /\ password a = "1234"))
  /\ username a' = username a /\ password a' = password a.
Proof.
  intros a' ls'. subst a' ls'. unfold handleLogin, USER, PASS.
  destruct (String.eqb_spec (username a) "hospitech") as [U | U];
    destruct (String.eqb_spec (password a) "1234") as [P | P]; simpl.
  - split; [| split; [tauto | split; [tauto | tauto]]].
    intros _. split; [reflexivity |]. split; [reflexivity |].
    split; [apply lookup_insert_eq |]. intros k Hk. now apply lookup_insert_ne.
  - split; [tauto |]. split; [tauto |]. split; [| tauto].
    intros F. rewrite F. split; [discriminate | tauto].
  - split; [tauto |]. split; [tauto |]. split; [| tauto].
    intros F. rewrite F. split; [discriminate | tauto].
  - split; [tauto |]. split; [tauto |]. split; [| tauto].
    intros F. rewrite F. split; [discriminate | tauto].
Qed.

Lemma login_decision_witness :
  isAuthenticated
    (fst (handleLogin {| isAuthenticated := false; username := "Hospitech";
                         password := "1234"; loginError := "" |} ∅))
  = false.
Proof.
  destruct (login_decision {| isAuthenticated := false; username := "Hospitech";
                              password := "1234"; loginError := "" |} ∅)
    as (_ & H & _).
  destruct H as (H & _).
  - intros [U _]. discriminate U.
  - exact H.
Defined.

Lemma mountAuth_flag (ls : Storage) :
  isAuthenticated (mountAuth ls) = true <-> ls !! "auth" = Some "1".
Proof.
  unfold mountAuth. simpl. destruct (ls !! "auth") as [v |].
  - rewrite String.eqb_eq. split; congruence.
  - split; discriminate.
Qed.

(** X15: the flag in memory always agrees with the flag in storage: in
    every session reached from a mount, by typing, submitting and logging
    out, the user is authenticated exactly when the storage holds
    [auth = 1], so a reload keeps a login and keeps a logout. *)
Theorem auth_flag_persisted (ls0 : Storage) (c : AuthState * Storage) :
  authReachable ls0 c ->
  (isAuthenticated (fst c) = true <-> snd c !! "auth" = Some "1")
  /\ isAuthenticated (mountAuth (snd c)) = isAuthenticated (fst c).
Proof.
  intros R.
  assert (I : isAuthenticated (fst c) = true <-> snd c !! "auth" = Some "1").
  { induction R as [| ev [a ls] R IH].
    - apply mountAuth_flag.
    - cbn [fst snd] in IH. destruct ev; cbn [handleAuth fst snd]; try exact IH.
      + unfold handleLogin.
        destruct (String.eqb (username a) USER && String.eqb (password a) PASS);
          cbn [fst snd]; [| exact IH].
        simpl. rewrite lookup_insert_eq. tauto.
      + simpl. rewrite lookup_delete_eq. split; discriminate. }
  split; [exact I |]. apply eq_true_iff_eq. now rewrite mountAuth_flag, I.
Qed.

Lemma auth_flag_persisted_witness :
  isAuthenticated
    (mountAuth
       (snd (handleAuth AuthLogout
               (handleAuth AuthSubmit
                  (handleAuth (AuthPass "1234")
                     (handleAuth (AuthUser "hospitech") (mountAuth ∅, ∅)))))))
  = false.
Proof.
  destruct (auth_flag_persisted ∅
              (handleAuth AuthLogout
                 (handleAuth AuthSubmit
                    (handleAuth (AuthPass "1234")
                       (handleAuth (AuthUser "hospitech") (mountAuth ∅, ∅))))))
    as [_ H].
  - do 4 apply auth_step. apply auth_init.
  - rewrite H. reflexivity.
Defined.

(** ** The rendered tables *)

Section RenderMore.

Variable dayjs : jsval -> instant.
Variable format : instant -> string -> string.
Variable toFixed2 : float -> string.

(** X16: the page has a chart section and a tables section exactly when
    the store holds a series; there is then one chart line and one table
    per series, in stored order and under its name, a table is hidden
    exactly when its chart line is, and the tables not hidden are those of
    the active series. *)
Theorem tables_follow_series (st : AppState) :
  (series st = [] ->
   renderChart dayjs st = None
   /\ renderTables dayjs format toFixed2 st = None)
  /\ (series st <> [] ->
      exists chart tables,
        renderChart dayjs st = Some chart
        /\ renderTables dayjs format toFixed2 st = Some tables
        /\ chart_data chart = mergedData dayjs (series st) (dateRange st)
        /\ map line_dataKey (chart_lines chart) = map name (series st)
        /\ map table_title tables = map name (series st)
        /\ map line_hide (chart_lines chart) = map table_display_none tables
        /\ map table_title
             (List.filter (fun t => negb (table_display_none t)) tables)
           = map name (activeSeries (series st) (hiddenKeys st))).
Proof.
  unfold renderChart, renderTables. split.
  - intros ->. split; reflexivity.
  - intros NE. destruct (series st) as [| s0 sr] eqn:E; [congruence |].
    cbn [length Nat.ltb Nat.leb]. eexists. eexists.
    split; [reflexivity |]. split; [reflexivity |]. split; [reflexivity |].
    cbn [chart_lines]. rewrite !map_map. split; [reflexivity |].
    split; [reflexivity |]. split; [reflexivity |].
    unfold activeSeries. generalize (s0 :: sr). intros l.
    induction l as [| s l IH]; [reflexivity |].
    cbn [map List.filter renderTable table_display_none].
    destruct (includes (hiddenKeys st) (name s)); cbn [negb map]; [exact IH |].
    now rewrite IH.
Qed.

(** X17: a table body is never empty: it has one line per sample read
    from the resampled mapping under the series' name, in order, and the
    notice for an empty period exactly when that list has no sample; the
    badge counts the samples.  For a series that is the only one of its name the
    notice appears exactly when none of its resampled samples is in
    range. *)
Theorem table_body_lines (st : AppState) (s : Series) :
  let t := renderTable dayjs format toFixed2 st s in
  let rows :=
    default []
      (getRows (resampledBySeries dayjs (series st) (dateRange st)) (name s)) in
  table_body t <> []
  /\ table_badge t = length rows
  /\ length (table_body t) = Nat.max 1 (length rows)
  /\ (In NoDataRow (table_body t) <-> rows = [])
  /\ (rows <> [] -> table_body t = map (renderBodyRow dayjs format toFixed2) rows)
  /\ (In s (series st) -> onlyOfItsName s (series st) ->
      (In NoDataRow (table_body t)
       <-> forall r, In r (resampled s) ->
                     ~ inRangeSpec dayjs (dateRange st) (dayjs (VStr (timestamp r))))).
Proof.
  intros t rows.
  assert (B : table_body t
              = map (renderBodyRow dayjs format toFixed2) rows
                ++ (if Nat.eqb (length rows) 0 then [NoDataRow] else [])) by reflexivity.
  assert (N : In NoDataRow (table_body t) <-> rows = []).
  { rewrite B. destruct rows as [| r rows']; simpl; [tauto |].
    split; [| discriminate]. intros [E | I]; [discriminate |].
    rewrite app_nil_r in I. apply in_map_iff in I as (x & E & _). discriminate. }
  split; [| split; [| split; [| split; [| split]]]].
  - rewrite B. destruct rows; simpl; discriminate.
  - reflexivity.
  - rewrite B. destruct rows as [| r rows']; simpl; [reflexivity |].
    now rewrite app_nil_r, length_map.
  - exact N.
  - intros NE. rewrite B. destruct rows; [congruence |]. simpl. now rewrite app_nil_r.
  - intros I O. rewrite N. subst rows.
    rewrite resampledBySeries_lookup, (lastNamed_only s _ I O). simpl. split.
    + intros E r Ir S. apply sampleKept_spec in S.
      assert (I' : In r (List.filter (sampleKept dayjs (dateRange st)) (resampled s))).
      { apply filter_In. now split. }
      rewrite E in I'. destruct I'.
    + intros H. apply filter_none. intros r Ir. apply not_true_is_false.
      rewrite sampleKept_spec. now apply H.
Qed.

End RenderMore.

Lemma tables_follow_series_witness :
  exists chart tables,
    renderChart (DayjsUTC.dayjs 0)
      (setHiddenKeys ["B.xlsx"]
         (setSeries [Fixtures.fileA; Fixtures.fileB] initialState)) = Some chart
    /\ renderTables (DayjsUTC.dayjs 0) DayjsUTC.format (fun _ => "")
         (setHiddenKeys ["B.xlsx"]
            (setSeries [Fixtures.fileA; Fixtures.fileB] initialState)) = Some tables
    /\ map table_title (List.filter (fun t => negb (table_display_none t)) tables)
       = ["A.xlsx"].
Proof.
  destruct (proj2 (tables_follow_series (DayjsUTC.dayjs 0) DayjsUTC.format
                     (fun _ => "")
                     (setHiddenKeys ["B.xlsx"]
                        (setSeries [Fixtures.fileA; Fixtures.fileB] initialState)))
              ltac:(discriminate))
    as (chart & tables & H1 & H2 & _ & _ & _ & _ & H7).
  exists chart, tables. split; [exact H1 |]. split; [exact H2 |].
  rewrite H7. reflexivity.
Defined.

Lemma table_body_lines_witness :
  In NoDataRow
    (table_body
       (renderTable (DayjsUTC.dayjs 0) DayjsUTC.format (fun _ => "")
          (setDateRange {| start := "2024-01-02T00:00"; end_ := "" |}
             (setSeries [Fixtures.twin1] initialState))
          Fixtures.twin1)).
Proof.
  apply (proj2 (proj2 (proj2 (proj2 (proj2
           (table_body_lines (DayjsUTC.dayjs 0) DayjsUTC.format (fun _ => "")
              (setDateRange {| start := "2024-01-02T00:00"; end_ := "" |}
                 (setSeries [Fixtures.twin1] initialState))
              Fixtures.twin1)))))).
  - left. reflexivity.
  - intros s' [<- | []] _. reflexivity.
  - intros r [<- | []] [[H | (x & s & Hx & Hs & Hle)] _].
    + discriminate.
    + vm_compute in Hx, Hs. injection Hx as <-. injection Hs as <-. lia.
Defined.

(** ** The PDF export *)

Lemma tableImages_app (a b : list PdfOp) :
  tableImages (a ++ b) = tableImages a ++ tableImages b.
Proof. unfold tableImages. apply flat_map_app. Qed.

Lemma visible_tables_active (f : Series -> TableEl) (hidden : list string)
    (l : list Series) :
  (forall s, table_title (f s) = name s) ->
  (forall s, table_display_none (f s) = includes hidden (name s)) ->
  map table_title (List.filter (fun t => negb (table_display_none t)) (map f l))
  = map name (activeSeries l hidden).
Proof.
  intros T D. unfold activeSeries. induction l as [| s l IH]; [reflexivity |].
  cbn [map List.filter]. rewrite D.
  destruct (includes hidden (name s)); cbn [negb map]; [exact IH |].
  now rewrite T, IH.
Qed.

Section ExportMore.

Variable dayjs : jsval -> instant.
Variable format : instant -> string -> string.
Variable toFixed2 : float -> string.
Variable html2canvas : Element -> Canvas.
Variable pdfWidth : float.
Variable pageHeight : float.

Lemma exportTables_images (tables : list TableEl) :
  forall y,
    tableImages (exportTables html2canvas pdfWidth pageHeight tables y)
    = List.filter (fun t => negb (table_display_none t)) tables.
Proof.
  induction tables as [| t tables IH]; intros y; [reflexivity |].
  cbn [exportTables List.filter]. destruct (table_display_none t); cbn [negb].
  - apply IH.
  - rewrite tableImages_app. cbn zeta.
    destruct (_ <? _)%float; simpl; now rewrite IH.
Qed.

Lemma exportTables_no_save (tables : list TableEl) :
  forall y,
    List.filter isSave (exportTables html2canvas pdfWidth pageHeight tables y) = []
    /\ List.filter isText (exportTables html2canvas pdfWidth pageHeight tables y) = [].
Proof.
  induction tables as [| t tables IH]; intros y; [split; reflexivity |].
  cbn [exportTables]. destruct (table_display_none t); [apply IH |].
  cbn zeta. rewrite !List.filter_app.
  destruct (_ <? _)%float; simpl; apply IH.
Qed.

(** X18: the export captures the tables that are not hidden, each once
    and in page order, and no hidden table; for the page a state renders,
    these are the tables of the active series. *)
Theorem export_skips_hidden_tables :
  (forall page showStats,
     tableImages (exportPDF dayjs format toFixed2 html2canvas pdfWidth pageHeight
                    page showStats)
     = match chartSection page with
       | None => []
       | Some _ =>
           List.filter (fun t => negb (table_display_none t))
             (default [] (tablesSection page))
       end)
  /\ (forall st,
        series st <> [] ->
        map table_title
          (tableImages (exportState dayjs format toFixed2 html2canvas pdfWidth
                          pageHeight st))
        = map name (activeSeries (series st) (hiddenKeys st))).
Proof.
  assert (G : forall page showStats,
     tableImages (exportPDF dayjs format toFixed2 html2canvas pdfWidth pageHeight
                    page showStats)
     = match chartSection page with
       | None => []
       | Some _ =>
           List.filter (fun t => negb (table_display_none t))
             (default [] (tablesSection page))
       end).
  { intros page showStats. unfold exportPDF.
    destruct (chartSection page) as [chart |]; [| reflexivity].
    cbn zeta. change (tableImages (?a :: ?l)) with (tableImages [a] ++ tableImages l).
    rewrite !tableImages_app. cbn [tableImages flat_map app].
    assert (S : tableImages
                  match showStats with
                  | Some s => statsLines dayjs format toFixed2 s
                                (10 + (scaledHeight pdfWidth (html2canvas (ElChart chart)) + 10))%float
                  | None => []
                  end = []) by now destruct showStats.
    rewrite S. cbn [app]. rewrite app_nil_r.
    destruct (tablesSection page) as [tables |]; [| reflexivity].
    apply exportTables_images. }
  split; [exact G |].
  intros st NE. unfold exportState. rewrite G. unfold render. cbn [chartSection tablesSection].
  unfold renderChart, renderTables.
  destruct (series st) as [| s0 sr] eqn:E; [congruence |].
  cbn [length Nat.ltb Nat.leb default]. rewrite <- E.
  now apply visible_tables_active.
Qed.

(** X19: without a chart section the export does nothing, and saves
    nothing; with one, it starts with the chart image at the top left
    margin, scaled to the page width less the margins, and ends with the
    one and only save, under the name [relatorio.pdf].  A state with an
    empty store exports nothing. *)
Theorem export_frame :
  (forall page showStats,
     chartSection page = None ->
     exportPDF dayjs format toFixed2 html2canvas pdfWidth pageHeight page showStats
     = [])
  /\ (forall page showStats chart,
        chartSection page = Some chart ->
        exists mid,
          exportPDF dayjs format toFixed2 html2canvas pdfWidth pageHeight page showStats
          = AddImage (ElChart chart) 10 10 (pdfWidth - 20)%float
              (canvas_height (html2canvas (ElChart chart)) * pdfWidth
               / canvas_width (html2canvas (ElChart chart)))%float
            :: mid ++ [Save "relatorio.pdf"]
          /\ List.filter isSave mid = [])
  /\ (forall st,
        series st = [] ->
        exportState dayjs format toFixed2 html2canvas pdfWidth pageHeight st = []).
Proof.
  split; [| split].
  - intros page showStats E. unfold exportPDF. now rewrite E.
  - intros page showStats chart E. unfold exportPDF. rewrite E. cbn zeta.
    eexists. rewrite app_assoc. split; [reflexivity |].
    rewrite List.filter_app.
    replace (List.filter isSave match showStats with
                                | Some s => _
                                | None => []
                                end) with (@nil PdfOp) by now destruct showStats.
    destruct (tablesSection page); [apply exportTables_no_save | reflexivity].
  - intros st E. unfold exportState, exportPDF, render, renderChart.
    cbn [chartSection]. now rewrite E.
Qed.

Lemma showStats_Some (sr : list Series) (hidden : list string) (x : statsT) :
  showStats sr hidden = Some x
  <-> exists s, activeSeries sr hidden = [s] /\ stats s = Some x.
Proof.
  unfold showStats. destruct (activeSeries sr hidden) as [| s [| s' l]]; simpl.
  - split; [discriminate | intros (s & [=] & _)].
  - split; [intros H; now exists s | intros (s0 & [= <-] & H); exact H].
  - split; [discriminate | intros (s0 & [=] & _)].
Qed.

(** X20: the export prints the five lines of the stats block exactly when
    stats are shown, and no other text: for the page of a state with a
    series, five lines when exactly one series is active and has stats,
    none otherwise. *)
Theorem export_stats_block :
  (forall page showStats,
     length (List.filter isText
               (exportPDF dayjs format toFixed2 html2canvas pdfWidth pageHeight
                  page showStats))
     = match chartSection page, showStats with
       | Some _, Some _ => 5
       | _, _ => 0
       end)
  /\ (forall st,
        series st <> [] ->
        let texts :=
          length (List.filter isText
                    (exportState dayjs format toFixed2 html2canvas pdfWidth
                       pageHeight st)) in
        ((exists s x, activeSeries (series st) (hiddenKeys st) = [s]
                      /\ stats s = Some x) -> texts = 5)
        /\ (~ (exists s x, activeSeries (series st) (hiddenKeys st) = [s]
                           /\ stats s = Some x) -> texts = 0)).
Proof.
  assert (G : forall page showStats,
     length (List.filter isText
               (exportPDF dayjs format toFixed2 html2canvas pdfWidth pageHeight
                  page showStats))
     = match chartSection page, showStats with
       | Some _, Some _ => 5
       | _, _ => 0
       end).
  { intros page showStats. unfold exportPDF.
    destruct (chartSection page) as [chart |]; [| reflexivity].
    cbn zeta. cbn [List.filter isText]. rewrite !List.filter_app, !length_app.
    assert (T : List.filter isText
                  match tablesSection page with
                  | Some tables =>
                      exportTables html2canvas pdfWidth pageHeight tables
                        match showStats with
                        | Some _ =>
                            (10 + (scaledHeight pdfWidth (html2canvas (ElChart chart)) + 10)
                             + 42)%float
                        | None =>
                            (10 + (scaledHeight pdfWidth (html2canvas (ElChart chart)) + 10))%float
                        end
                  | None => []
                  end = []).
    { destruct (tablesSection page); [apply exportTables_no_save | reflexivity]. }
    rewrite T. now destruct showStats. }
  split; [exact G |].
  intros st NE texts. subst texts. unfold exportState. rewrite G.
  unfold render, renderChart. cbn [chartSection].
  destruct (series st) as [| s0 sr] eqn:E; [congruence |].
  cbn [length Nat.ltb Nat.leb]. rewrite <- E. split.
  - intros (s & x & A & S). now rewrite (proj2 (showStats_Some _ _ x) (ex_intro _ s (conj A S))).
  - intros N. destruct (showStats (series st) (hiddenKeys st)) as [x |] eqn:S;
      [| reflexivity].
    exfalso. apply N. apply showStats_Some in S as (s & A & S). now exists s, x.
Qed.

Lemma exportTables_breaks (tables : list TableEl) :
  forall y,
    length (List.filter isAddPage
              (exportTables html2canvas pdfWidth pageHeight tables y))
    <= length (List.filter (fun t => negb (table_display_none t)) tables).
Proof.
  induction tables as [| t tables IH]; intros y; [simpl; lia |].
  cbn [exportTables List.filter]. destruct (table_display_none t); cbn [negb].
  - apply IH.
  - cbn zeta. rewrite List.filter_app, length_app.
    destruct (_ <? _)%float; simpl.
    + match goal with |- context [exportTables _ _ _ _ ?y'] => specialize (IH y') end. lia.
    + match goal with |- context [exportTables _ _ _ _ ?y'] => specialize (IH y') end. lia.
Qed.

Lemma exportTables_after_break (tables : list TableEl) :
  forall y ops1 ops2,
    exportTables html2canvas pdfWidth pageHeight tables y = ops1 ++ AddPage :: ops2 ->
    exists t h rest,
      ops2 = AddImage (ElTable t) 10 10 (pdfWidth - 20)%float h :: rest.
Proof.
  induction tables as [| t tables IH]; intros y ops1 ops2 E.
  - destruct ops1; discriminate.
  - cbn [exportTables] in E. destruct (table_display_none t); [exact (IH _ _ _ E) |].
    cbn zeta in E. destruct (_ <? _)%float; simpl in E.
    + destruct ops1 as [| a ops1]; simpl in E.
      * injection E as <-. now eexists _, _, _.
      * injection E as <- E. destruct ops1 as [| b ops1]; simpl in E; [discriminate |].
        injection E as <- E. exact (IH _ _ _ E).
    + destruct ops1 as [| a ops1]; simpl in E; [discriminate |].
      injection E as <- E. exact (IH _ _ _ E).
Qed.

Lemma split_after_prefix (a b ops1 ops2 : list PdfOp) :
  a ++ b = ops1 ++ AddPage :: ops2 ->
  List.filter isAddPage a = [] ->
  exists ops1', ops1 = a ++ ops1' /\ b = ops1' ++ AddPage :: ops2.
Proof.
  revert ops1. induction a as [| x a IH]; intros ops1 E F; simpl in *.
  - now exists ops1.
  - destruct ops1 as [| o ops1]; simpl in E.
    + injection E as -> _. discriminate.
    + injection E as <- E. destruct (isAddPage x); [discriminate |].
      destruct (IH _ E F) as (ops1' & -> & Hb). now exists ops1'.
Qed.

Lemma split_before_save (l ops1 ops2 : list PdfOp) (f : string) :
  l ++ [Save f] = ops1 ++ AddPage :: ops2 ->
  exists ops2', ops2 = ops2' ++ [Save f] /\ l = ops1 ++ AddPage :: ops2'.
Proof.
  revert ops1. induction l as [| x l IH]; intros ops1 E; simpl in E.
  - destruct ops1 as [| o [| o' ops1]]; discriminate.
  - destruct ops1 as [| o ops1]; simpl in E.
    + injection E as -> E. destruct ops2 as [| o ops2] using rev_ind.
      * destruct l; discriminate.
      * apply app_inj_tail in E as [-> ->]. now exists ops2.
    + injection E as <- E. destruct (IH _ E) as (ops2' & -> & ->). now exists ops2'.
Qed.


(** X21: a page is started only for a table, which then goes at the top
    margin of the new page: every page break comes after the chart image
    and after every text line, and is followed at once by the image of a
    table at height 10, so no table is split and the stats block never
    starts a page; there are at most as many page breaks as exported
    tables. *)
Theorem export_page_breaks (page : Page) (showStats : option statsT) :
  let ops := exportPDF dayjs format toFixed2 html2canvas pdfWidth pageHeight
               page showStats in
  length (List.filter isAddPage ops) <= length (tableImages ops)
  /\ (forall ops1 ops2,
        ops = ops1 ++ AddPage :: ops2 ->
        (exists t h rest,
           ops2 = AddImage (ElTable t) 10 10 (pdfWidth - 20)%float h :: rest)
        /\ (exists chart x y w h ops1',
              ops1 = AddImage (ElChart chart) x y w h :: ops1')
        /\ List.filter isText ops2 = []).
Proof.
  intros ops. subst ops. unfold exportPDF.
  destruct (chartSection page) as [chart |];
    [| split; [simpl; lia | intros [| ? ?] ? ?; discriminate]].
  cbn zeta.
  set (y1 := (10 + (scaledHeight pdfWidth (html2canvas (ElChart chart)) + 10))%float).
  set (statsOps := match showStats with
                   | Some s => statsLines dayjs format toFixed2 s y1
                   | None => []
                   end).
  set (tableOps := match tablesSection page with
                   | Some tables =>
                       exportTables html2canvas pdfWidth pageHeight tables
                         match showStats with
                         | Some _ => (y1 + 42)%float
                         | None => y1
                         end
                   | None => []
                   end).
  assert (S1 : List.filter isAddPage statsOps = []) by (subst statsOps; now destruct showStats).
  assert (S2 : tableImages statsOps = []) by (subst statsOps; now destruct showStats).
  assert (T1 : length (List.filter isAddPage tableOps) <= length (tableImages tableOps)).
  { subst tableOps. destruct (tablesSection page) as [tables |]; [| simpl; lia].
    rewrite exportTables_images. apply exportTables_breaks. }
  assert (T2 : List.filter isText tableOps = []).
  { subst tableOps. destruct (tablesSection page); [apply exportTables_no_save | reflexivity]. }
  assert (T3 : forall ops1 ops2, tableOps = ops1 ++ AddPage :: ops2 ->
               exists t h rest,
                 ops2 = AddImage (ElTable t) 10 10 (pdfWidth - 20)%float h :: rest).
  { subst tableOps. destruct (tablesSection page) as [tables |].
    - intros ops1 ops2 E. exact (exportTables_after_break _ _ _ _ E).
    - intros [| ? ?] ? ?; discriminate. }
  split.
  - cbn [List.filter isAddPage]. change (tableImages (?a :: ?l)) with (tableImages [a] ++ tableImages l).
    rewrite !List.filter_app, !tableImages_app, !length_app, S1, S2. simpl. lia.
  - intros ops1 ops2 E.
    destruct ops1 as [| o ops1]; [discriminate |]. simpl in E. injection E as <- E.
    apply split_after_prefix in E as (ops1' & -> & E); [| exact S1].
    apply split_before_save in E as (ops2' & -> & E).
    destruct (T3 _ _ E) as (t & h & rest & ->).
    split; [now eexists _, _, _ |]. split; [now eexists _, _, _, _, _, _ |].
    rewrite E in T2. rewrite List.filter_app in T2. simpl in T2.
    apply app_eq_nil in T2 as [_ T2]. simpl. rewrite List.filter_app, T2. reflexivity.
Qed.

End ExportMore.

Lemma export_skips_hidden_tables_witness :
  map table_title (tableImages (ReportFixtures.export ReportFixtures.twoFiles))
  = map name (activeSeries (series ReportFixtures.twoFiles)
                (hiddenKeys ReportFixtures.twoFiles)).
Proof.
  apply (proj2 (export_skips_hidden_tables (DayjsUTC.dayjs 0) DayjsUTC.format
                  ReportFixtures.toFixed2 ReportFixtures.html2canvas
                  ReportFixtures.pdfWidth ReportFixtures.pageHeight)
           ReportFixtures.twoFiles).
  discriminate.
Defined.

Lemma export_frame_witness :
  ReportFixtures.export initialState = [].
Proof.
  apply (proj2 (proj2 (export_frame (DayjsUTC.dayjs 0) DayjsUTC.format
                         ReportFixtures.toFixed2 ReportFixtures.html2canvas
                         ReportFixtures.pdfWidth ReportFixtures.pageHeight))
           initialState).
  reflexivity.
Defined.

Lemma export_stats_block_witness :
  length (List.filter isText (ReportFixtures.export ReportFixtures.twoFiles)) = 5.
Proof.
  apply (proj1 (proj2 (export_stats_block (DayjsUTC.dayjs 0) DayjsUTC.format
                         ReportFixtures.toFixed2 ReportFixtures.html2canvas
                         ReportFixtures.pdfWidth ReportFixtures.pageHeight)
                  ReportFixtures.twoFiles ltac:(discriminate))).
  eexists. eexists. split; reflexivity.
Defined.

Lemma export_page_breaks_witness :
  exists ops1 t h rest,
    ReportFixtures.export ReportFixtures.twoFiles
    = ops1 ++ AddPage
           :: AddImage (ElTable t) 10 10 (ReportFixtures.pdfWidth - 20)%float h :: rest.
Proof.
  pose (ops := ReportFixtures.export ReportFixtures.twoFiles).
  assert (E : ops = firstn 7 ops ++ AddPage :: skipn 8 ops) by (vm_compute; reflexivity).
  destruct (proj1 (proj2 (export_page_breaks (DayjsUTC.dayjs 0) DayjsUTC.format
                            ReportFixtures.toFixed2 ReportFixtures.html2canvas
                            ReportFixtures.pdfWidth ReportFixtures.pageHeight
                            (render (DayjsUTC.dayjs 0) DayjsUTC.format
                               ReportFixtures.toFixed2 ReportFixtures.twoFiles)
                            (showStats (series ReportFixtures.twoFiles)
                               (hiddenKeys ReportFixtures.twoFiles)))
                     (firstn 7 ops) (skipn 8 ops) E))
    as (t & h & rest & R).
  exists (firstn 7 ops), t, h, rest. rewrite <- R. exact E.
Defined.

(** ** Toggling and the stats *)

Lemma includes_toggle_twice (n : string) (hidden : list string) (m : string) :
  includes (toggleLine n (toggleLine n hidden)) m = includes hidden m.
Proof.
  apply eq_true_iff_eq. rewrite !includes_In, !toggleLine_In.
  destruct (String.eqb_spec m n) as [-> | Hne]; [| tauto].
  destruct (in_dec string_dec n hidden); tauto.
Qed.

(** X22: clicking the same legend entry twice brings back the same active
    series and the same stats, whatever the hidden names were, although
    the list of hidden names itself may come back in another order; and a
    click on a name that no series carries changes neither. *)
Theorem toggle_twice_same_view (sr : list Series) (hidden : list string) (n : string) :
  activeSeries sr (toggleLine n (toggleLine n hidden)) = activeSeries sr hidden
  /\ showStats sr (toggleLine n (toggleLine n hidden)) = showStats sr hidden
  /\ ((forall s, In s sr -> name s <> n) ->
      activeSeries sr (toggleLine n hidden) = activeSeries sr hidden
      /\ showStats sr (toggleLine n hidden) = showStats sr hidden).
Proof.
  assert (A : activeSeries sr (toggleLine n (toggleLine n hidden))
              = activeSeries sr hidden).
  { unfold activeSeries. apply filter_ext. intros s.
    now rewrite includes_toggle_twice. }
  split; [exact A |]. split; [unfold showStats; now rewrite A |].
  intros Other.
  assert (B : activeSeries sr (toggleLine n hidden) = activeSeries sr hidden).
  { unfold activeSeries. apply filter_ext_in. intros s I. f_equal.
    apply eq_true_iff_eq. rewrite !includes_In, toggleLine_In.
    pose proof (Other s I). tauto. }
  split; [exact B | unfold showStats; now rewrite B].
Qed.

Lemma toggle_twice_same_view_witness :
  activeSeries [Fixtures.fileA; Fixtures.fileB] (toggleLine "notes.txt" ["B.xlsx"])
  = activeSeries [Fixtures.fileA; Fixtures.fileB] ["B.xlsx"].
Proof.
  apply (proj2 (proj2 (toggle_twice_same_view [Fixtures.fileA; Fixtures.fileB]
                         ["B.xlsx"] "notes.txt"))).
  intros s [<- | [<- | []]]; discriminate.
Defined.

(** ** What an upload keeps of the responses *)

Section UploadShape.

Variable dayjs : jsval -> instant.
Variable format : instant -> string -> string.
Variable Server : Type.
Variable post : Form -> Server -> (UploadError + Response) * Server.

(** The series [s] shows the response [res] as the server gave it. *)
Let shows (dr : DateRange) (s : Series) : Prop :=
  exists f sv res sv',
    post (buildForm f dr) sv = (inr res, sv')
    /\ name s = file_name f
    /\ map timestamp (data s) = map raw_timestamp (res_data res)
    /\ map temperature (data s) = map raw_temperature (res_data res)
    /\ Forall (fun d => timeLabel d
                        = format (dayjs (VStr (timestamp d))) "DD/MM HH:mm") (data s)
    /\ map timestamp (resampled s)
       = map raw_timestamp (default [] (res_resampled res))
    /\ map temperature (resampled s)
       = map raw_temperature (default [] (res_resampled res))
    /\ stats s = res_stats res.

Lemma shapeResult_shows (dr : DateRange) (i : nat) (f : File) (sv sv' : Server)
    (res : Response) :
  post (buildForm f dr) sv = (inr res, sv') ->
  shows dr (shapeResult dayjs format i f res).
Proof.
  intros P. exists f, sv, res, sv'. simpl. rewrite !map_map. simpl.
  repeat split; try assumption; try reflexivity.
  apply Forall_map. simpl. now apply Forall_forall.
Qed.

Lemma uploadLoop_shows (dr : DateRange) (fs : list File) :
  forall i acc (w w1 : World Server) results,
    uploadLoop dayjs format post i fs dr acc w = (inr results, w1) ->
    Forall (shows dr) acc -> Forall (shows dr) results.
Proof.
  induction fs as [| f fs IH]; intros i acc w w1 results H A; simpl in H.
  - now injection H as <- <-.
  - unfold axios_post at 1 in H.
    destruct (post (buildForm f dr) (server w)) as [[e | res] sv] eqn:P; [discriminate |].
    apply (IH _ _ _ _ _ H). apply Forall_app. split; [assumption |].
    constructor; [| constructor]. now apply (shapeResult_shows dr i f (server w) sv).
Qed.

(** X23: a successful upload stores, for every file, what the server
    answered for it: the same timestamps and temperatures, as many and in
    the same order, for the readings and for the resampled samples, each
    reading labelled from its own timestamp, and the stats as sent; a
    response without resampled samples gives an empty list. *)
Theorem upload_keeps_responses (st : AppState) (w w1 : World Server)
    (results : list Series) :
  files st <> [] ->
  uploadLoop dayjs format post 0 (files st) (dateRange st) [] w = (inr results, w1) ->
  forall s, In s (series (fst (onUpload dayjs format post st w))) ->
  exists f sv res sv',
    post (buildForm f (dateRange st)) sv = (inr res, sv')
    /\ name s = file_name f
    /\ map timestamp (data s) = map raw_timestamp (res_data res)
    /\ map temperature (data s) = map raw_temperature (res_data res)
    /\ Forall (fun d => timeLabel d
                        = format (dayjs (VStr (timestamp d))) "DD/MM HH:mm") (data s)
    /\ map timestamp (resampled s)
       = map raw_timestamp (default [] (res_resampled res))
    /\ map temperature (resampled s)
       = map raw_temperature (default [] (res_resampled res))
    /\ stats s = res_stats res.
Proof.
  intros NE Ok s I.
  assert (E : series (fst (onUpload dayjs format post st w)) = results).
  { unfold onUpload. destruct (Nat.eqb_spec (length (files st)) 0) as [Z | _].
    - destruct (files st); [congruence | discriminate].
    - now rewrite Ok. }
  rewrite E in I.
  pose proof (uploadLoop_shows _ _ _ _ _ _ _ Ok (List.Forall_nil _)) as F.
  rewrite List.Forall_forall in F. exact (F s I).
Qed.

End UploadShape.

Lemma upload_keeps_responses_witness :
  exists s f sv res sv',
    In s (series (fst (onUpload (DayjsUTC.dayjs 0) DayjsUTC.format Fixtures.pickyPost
                         (setFiles [Fixtures.file "a.csv"] initialState)
                         {| server := 0; sent := [] |})))
    /\ Fixtures.pickyPost (buildForm f {| start := ""; end_ := "" |}) sv
       = (inr res, sv')
    /\ name s = file_name f
    /\ map timestamp (data s) = map raw_timestamp (res_data res).
Proof.
  pose (st := setFiles [Fixtures.file "a.csv"] initialState).
  pose (s := hd Fixtures.fileA
               (series (fst (onUpload (DayjsUTC.dayjs 0) DayjsUTC.format
                               Fixtures.pickyPost st {| server := 0; sent := [] |})))).
  assert (I : In s (series (fst (onUpload (DayjsUTC.dayjs 0) DayjsUTC.format
                                   Fixtures.pickyPost st
                                   {| server := 0; sent := [] |})))).
  { apply hd_In. vm_compute. discriminate. }
  destruct (upload_keeps_responses (DayjsUTC.dayjs 0) DayjsUTC.format nat
              Fixtures.pickyPost st {| server := 0; sent := [] |} _ _
              ltac:(discriminate) eq_refl s I)
    as (f & sv & res & sv' & H1 & H2 & H3 & _).
  exists s, f, sv, res, sv'. split; [exact I |]. split; [exact H1 |].
  split; [exact H2 | exact H3].
Defined.

Lemma upload_frame_witness :
  fst (onUpload (DayjsUTC.dayjs 0) DayjsUTC.format Fixtures.pickyPost
         (setUploadError "Falha no upload/processamento" initialState)
         {| server := 0; sent := [] |})
  = setUploadError "Falha no upload/processamento" initialState.
Proof.
  apply (proj2 (proj2 (proj2 (proj2
           (upload_frame (DayjsUTC.dayjs 0) DayjsUTC.format nat Fixtures.pickyPost
              (setUploadError "Falha no upload/processamento" initialState)
              {| server := 0; sent := [] |}))))).
  reflexivity.
Defined.

Lemma merge_append_witness :
  map_get (mergeAll ([Fixtures.fileA] ++ [Fixtures.fileB])) "01/01 11:00"
  = map_get (mergeAll [Fixtures.fileA]) "01/01 11:00".
Proof.
  apply (proj2 (merge_append [Fixtures.fileA] [Fixtures.fileB])).
  intros I. vm_compute in I. destruct I as [H | [H | []]]; discriminate.
Defined.
